(** * Seekon server: transactional e-mail helper and upload controller

    A shallow embedding of [server/src/utils/email.js] and of
    [server/src/controllers/uploadController.js], followed by the properties
    of the notification dispatch path and of the temporary-file cleanup.

    JavaScript functions become computations in a small monad that threads
    the module state, records the observable effects (console output, reads
    of [process.env], calls into nodemailer, the file system and the HTTP
    response) and distinguishes a normal completion from a thrown exception,
    so that every [try]/[catch] of the source is visible in the model. *)

From Stdlib Require Import ZArith String Ascii List Lia.
From stdpp Require Import base strings gmap list.

Set Warnings "-register-all,-clear-no-such-hyp".
Open Scope string_scope.
Open Scope list_scope.

(** ** JavaScript values and string helpers *)

Module Js.

(** The double-quote character, written by its code. *)
Definition dq : string := String (ascii_of_nat 34) EmptyString.

(** Values stored in the plain objects the program builds. *)
Inductive value : Type :=
| VBool (b : bool)
| VStr (s : string)
| VObj (props : gmap string value).

(** What a [catch] clause receives: an [Error] with its [message] and,
    for system and network failures, a string [code]. *)
Record error : Type := Error { code : option string; message : string }.

(** Truthiness of a string or [undefined] ([None]): only a non-empty
    string is truthy. *)
Definition truthy (v : option string) : bool :=
  match v with
  | Some (String _ _) => true
  | _ => false
  end.

(** [v || d] for a string or [undefined] on the left. *)
Definition or_else (v : option string) (d : string) : string :=
  match v with
  | Some (String c r) => String c r
  | _ => d
  end.

(** [`${v}`]: interpolation of a string or [undefined] in a template. *)
Definition interp (v : option string) : string :=
  match v with
  | Some s => s
  | None => "undefined"
  end.

(** [v === s] for a string or [undefined] on the left. *)
Definition strict_eq (v : option string) (s : string) : bool :=
  match v with
  | Some t => String.eqb t s
  | None => false
  end.

(** [s.repeat(n)] *)
Fixpoint repeat (s : string) (n : nat) : string :=
  match n with
  | O => EmptyString
  | S k => s +:+ repeat s k
  end.

(** The bytes (UTF-8) of a string. *)
Definition bytes (s : string) : list N :=
  List.map N_of_ascii (list_ascii_of_string s).

(** Leading [StrWhiteSpaceChar]s are skipped by [parseInt]: TAB, LF, VT,
    FF, CR, SP, and in UTF-8 U+00A0, U+1680, U+2000..U+200A, U+2028, U+2029,
    U+202F, U+205F, U+3000 and U+FEFF. *)
Fixpoint trimStart (l : list N) : list N :=
  match l with
  | (9 | 10 | 11 | 12 | 13 | 32) :: r => trimStart r
  | 194 :: 160 :: r => trimStart r
  | 225 :: 154 :: 128 :: r => trimStart r
  | 226 :: 128 :: b :: r =>
      if ((128 <=? b) && (b <=? 138) || (b =? 168) || (b =? 169) || (b =? 175))%N
      then trimStart r else l
  | 226 :: 129 :: 159 :: r => trimStart r
  | 227 :: 128 :: 128 :: r => trimStart r
  | 239 :: 187 :: 191 :: r => trimStart r
  | _ => l
  end%N.

(** Value of a byte as a digit in the given radix. *)
Definition digit (radix : Z) (b : N) : option Z :=
  let n := Z.of_N b in
  let v := (if (48 <=? n) && (n <=? 57) then Some (n - 48)
            else if (97 <=? n) && (n <=? 122) then Some (n - 87)
            else if (65 <=? n) && (n <=? 90) then Some (n - 55)
            else None)%Z in
  match v with
  | Some d => if (d <? radix)%Z then Some d else None
  | None => None
  end.

(** The longest prefix of digits, as a number; [acc] is [None] until a
    first digit has been read. *)
Fixpoint digits (radix : Z) (acc : option Z) (l : list N) : option Z :=
  match l with
  | [] => acc
  | b :: r =>
      match digit radix b with
      | Some d => digits radix (Some (radix * default 0 acc + d)%Z) r
      | None => acc
      end
  end.

(** A JavaScript number as [parseInt] returns it: [NaN], negative zero, an
    infinity, or a finite double, which is then an integer and is given by its
    exact value ([Int 0] is +0). *)
Inductive number : Type :=
| NaN
| NegZero
| Int (n : Z)
| Infinity (negative : bool).

(** The double nearest to a non-zero integer, ties to even. An integer of
    at most 53 bits is a double. A longer one keeps its 53 leading bits,
    rounded up when the bits dropped are more than half a unit of the last
    place kept, or exactly half with the last bit kept odd; from 2^1024 on the
    result is an infinity. *)
Definition toNumber (n : Z) : number :=
  (let m := Z.abs n in
   let bits := Z.log2 m + 1 in
   if bits <=? 53 then Int n else
   let drop := bits - 53 in
   let q := Z.shiftr m drop in
   let rest := m - Z.shiftl q drop in
   let half := Z.shiftl 1 (drop - 1) in
   let q' := if (half <? rest) || ((rest =? half) && Z.odd q) then q + 1 else q in
   let v := Z.shiftl q' drop in
   if Z.shiftl 1 1024 <=? v then Infinity (n <? 0)
   else Int (if n <? 0 then - v else v))%Z.

(** [parseInt(s)] without a radix: white space, an optional sign, an
    optional [0x]/[0X] prefix selecting radix 16, then the longest run of
    digits; [NaN] without a digit, a zero with the sign read, and otherwise
    the double nearest to the signed integer, as Node computes it. *)
Definition parseInt (s : string) : number :=
  let l := trimStart (bytes s) in
  let '(negative, l) :=
    match l with
    | 45%N :: r => (true, r)
    | 43%N :: r => (false, r)
    | _ => (false, l)
    end in
  let '(radix, l) :=
    match l with
    | 48%N :: (120%N | 88%N) :: r => (16%Z, r)
    | _ => (10%Z, l)
    end in
  match digits radix None l with
  | Some 0%Z => if negative : bool then NegZero else Int 0
  | Some n => toNumber (if negative : bool then - n else n)%Z
  | None => NaN
  end.

End Js.

(** ** Computations with state, effects and exceptions *)

Module Exec.
Import Js.

(** How a computation ends: with a value, or by throwing. *)
Inductive completion (A : Type) : Type :=
| Normal (a : A)
| Throw (e : error).
Arguments Normal {A} a.
Arguments Throw {A} e.

(** A computation over a state [S] that emits events of type [Ev]. *)
Definition Exec (S Ev A : Type) : Type := S -> completion A * S * list Ev.

Section Ops.
Context {S Ev : Type}.

Definition ret {A} (a : A) : Exec S Ev A := fun s => (Normal a, s, []).

Definition bind {A B} (m : Exec S Ev A) (k : A -> Exec S Ev B) : Exec S Ev B :=
  fun s =>
    match m s with
    | (Normal a, s1, t1) => let '(r, s2, t2) := k a s1 in (r, s2, t1 ++ t2)
    | (Throw e, s1, t1) => (Throw e, s1, t1)
    end.

(** [throw e] *)
Definition throw {A} (e : error) : Exec S Ev A := fun s => (Throw e, s, []).

(** [try { m } catch (e) { h e }] *)
Definition tryCatch {A} (m : Exec S Ev A) (h : error -> Exec S Ev A) : Exec S Ev A :=
  fun s =>
    match m s with
    | (Normal a, s1, t1) => (Normal a, s1, t1)
    | (Throw e, s1, t1) => let '(r, s2, t2) := h e s1 in (r, s2, t1 ++ t2)
    end.

Definition gets {A} (f : S -> A) : Exec S Ev A := fun s => (Normal (f s), s, []).
Definition modify (f : S -> S) : Exec S Ev unit := fun s => (Normal tt, f s, []).
Definition emit (e : Ev) : Exec S Ev unit := fun s => (Normal tt, s, [e]).
End Ops.

#[global] Instance exec_ret {S Ev} : MRet (Exec S Ev) := fun A a => ret a.
#[global] Instance exec_bind {S Ev} : MBind (Exec S Ev) := fun A B k m => bind m k.

End Exec.

(** ** [server/src/utils/email.js] *)

Module Email.
Import Js Exec.

(** The object handed to [nodemailer.createTransport]. *)
Record TransportConfig : Type := {
  host : string;
  port : number;
  secure : bool;
  auth_user : option string;
  auth_pass : option string;
  tls_rejectUnauthorized : bool;
  connectionTimeout : Z;
  greetingTimeout : Z;
  socketTimeout : Z
}.

(** The handle [createTransport] returns, built from its configuration. *)
Record Transport : Type := { options : TransportConfig }.

(** The module object [require('nodemailer')] returns. *)
Inductive Nodemailer : Type := NodemailerModule.

(** The argument of [sendMail]. *)
Record MailOptions : Type := {
  from : string;
  to : string;
  subject : string;
  html : string
}.

Inductive level : Type := Log | Warn | Err.

(** Observable effects, in the order they happen. [EvLogEmailToConsole]
    marks an entry into [logEmailToConsole] with its three arguments; the
    lines it prints follow as [EvConsole] events. *)
Inductive event : Type :=
| EvRequire (name : string)
| EvEnv (name : string)
| EvCreateTransport (cfg : TransportConfig)
| EvSendMail (mailer : Transport) (mail : MailOptions)
| EvConsole (l : level) (args : list string)
| EvLogEmailToConsole (type to url : string).

(** What surrounds one call: the environment variables at that moment and
    the behaviour of the collaborators ([None]: the operation succeeds,
    [Some e]: it throws or rejects with [e]). *)
Record World : Type := {
  env : gmap string string;
  requireFails : string -> option error;
  createTransportFails : TransportConfig -> option error;
  sendMailFails : Transport -> MailOptions -> option error
}.

(** The two module-level variables, [let transporter = null] and
    [let nodemailerChecked = false]. *)
Record State : Type := {
  transporter : option Transport;
  nodemailerChecked : bool
}.

Definition init : State := {| transporter := None; nodemailerChecked := false |}.

Definition set_transporter (t : option Transport) (s : State) : State :=
  {| transporter := t; nodemailerChecked := nodemailerChecked s |}.

Definition set_nodemailerChecked (b : bool) (s : State) : State :=
  {| transporter := transporter s; nodemailerChecked := b |}.

Definition nl : string := String (ascii_of_nat 10) EmptyString.

Section Call.
Variable w : World.

Abbreviation Run := (Exec State event).

(** [process.env.NAME] *)
Definition processEnv (name : string) : Run (option string) :=
  emit (EvEnv name);; mret (env w !! name).

(** [require(name)] *)
Definition require (name : string) : Run Nodemailer :=
  emit (EvRequire name);;
  match requireFails w name with
  | Some e => throw e
  | None => mret NodemailerModule
  end.

(** [nodemailer.createTransport(cfg)] *)
Definition createTransport (nodemailer : Nodemailer) (cfg : TransportConfig) : Run Transport :=
  emit (EvCreateTransport cfg);;
  match createTransportFails w cfg with
  | Some e => throw e
  | None => mret {| options := cfg |}
  end.

(** [await mailer.sendMail(mail)] *)
Definition sendMail (mailer : Transport) (mail : MailOptions) : Run unit :=
  emit (EvSendMail mailer mail);;
  match sendMailFails w mailer mail with
  | Some e => throw e
  | None => mret tt
  end.

(** [console.log], [console.warn], [console.error] *)
Definition console (l : level) (args : list string) : Run unit :=
  emit (EvConsole l args).

Definition loadNodemailer : Run (option Nodemailer) :=
  tryCatch
    (nodemailer ← require "nodemailer";
     mret (Some nodemailer))
    (fun e => mret None).

Definition getTransporter : Run (option Transport) :=
  cached ← gets transporter;
  match cached with
  | Some t => mret (Some t)
  | None =>
      checked ← gets nodemailerChecked;
      if checked : bool then mret None else
      loaded ← loadNodemailer;
      match loaded with
      | None =>
          modify (set_nodemailerChecked true);;
          mret None
      | Some nodemailer =>
          user ← processEnv "EMAIL_USER";
          configured ← (if truthy user
                        then pass ← processEnv "EMAIL_PASS"; mret (truthy pass)
                        else mret false);
          (if configured : bool then
             tryCatch
               (port0 ← processEnv "EMAIL_PORT";
                let useSSL := strict_eq port0 "465" in
                host1 ← processEnv "EMAIL_HOST";
                port1 ← processEnv "EMAIL_PORT";
                user1 ← processEnv "EMAIL_USER";
                pass1 ← processEnv "EMAIL_PASS";
                t ← createTransport nodemailer
                      {| host := or_else host1 "smtp.gmail.com";
                         port := parseInt (or_else port1 "587");
                         secure := useSSL;
                         auth_user := user1;
                         auth_pass := pass1;
                         tls_rejectUnauthorized := false;
                         connectionTimeout := 10000;
                         greetingTimeout := 10000;
                         socketTimeout := 10000 |};
                modify (set_transporter (Some t));;
                console Log ["✅ Email transporter configured successfully"])
               (fun error =>
                  console Err ["❌ Failed to create email transporter:"; message error])
           else
             console Warn ["⚠️  EMAIL_USER or EMAIL_PASS not set in environment"]);;
          modify (set_nodemailerChecked true);;
          gets transporter
      end
  end.

Definition logEmailToConsole (type to url : string) : Run unit :=
  emit (EvLogEmailToConsole type to url);;
  let line := repeat "=" 50 in
  console Log [nl +:+ line];;
  console Log [" 📧 " +:+ type];;
  console Log [line];;
  console Log [" To:      " +:+ to];;
  console Log [" Link:    " +:+ url];;
  console Log [line];;
  console Log [" " +:+ nl +:+ " ⚠️  EMAIL CONFIGURATION INCOMPLETE"];;
  console Log ["    To enable real emails:"];;
  console Log ["    1. Ensure nodemailer is installed: npm install nodemailer"];;
  console Log ["    2. Add to server/.env:"];;
  console Log ["       EMAIL_USER=your-email@gmail.com"];;
  console Log ["       EMAIL_PASS=your-app-password"];;
  console Log ["    3. Restart the server"];;
  console Log [" " +:+ line +:+ nl].

Definition verificationHtml (verificationUrl : string) : string :=
"
      <h2>Verify Your Email</h2>
      <p>Thank you for registering with Seekon. Please click the link below to verify your email address:</p>
      <a href=" +:+ dq +:+ verificationUrl +:+ dq +:+ " style=" +:+ dq +:+ "display: inline-block; padding: 10px 20px; color: white; background-color: #007bff; text-decoration: none; border-radius: 5px;" +:+ dq +:+ ">Verify Email</a>
      <p>If the button above doesn't work, copy and paste this link into your browser:</p>
      <p>" +:+ verificationUrl +:+ "</p>
      <p>This link will expire in 24 hours.</p>
      <p>If you did not create an account with Seekon, please ignore this email.</p>
    ".

Definition resetHtml (resetUrl : string) : string :=
"
      <h2>Password Reset Request</h2>
      <p>We received a request to reset your password. Click the link below to set a new password:</p>
      <a href=" +:+ dq +:+ resetUrl +:+ dq +:+ " style=" +:+ dq +:+ "display: inline-block; padding: 10px 20px; color: white; background-color: #007bff; text-decoration: none; border-radius: 5px;" +:+ dq +:+ ">Reset Password</a>
      <p>If the button above doesn't work, copy and paste this link into your browser:</p>
      <p>" +:+ resetUrl +:+ "</p>
      <p>This link will expire in 10 minutes for security reasons.</p>
      <p>If you did not request a password reset, please ignore this email or contact support.</p>
    ".

(** [error.code] is one of the three connection failures. *)
Definition connectionError (error : Js.error) : bool :=
  strict_eq (code error) "ESOCKET"
  || strict_eq (code error) "ETIMEDOUT"
  || strict_eq (code error) "ECONNREFUSED".

Definition sendVerificationEmail (email token : string) : Run (gmap string value) :=
  clientUrl ← processEnv "CLIENT_URL";
  let verificationUrl :=
    or_else clientUrl "http://localhost:5173" +:+ "/verify-email/" +:+ token in
  mailer ← getTransporter;
  match mailer with
  | None =>
      logEmailToConsole "VERIFICATION EMAIL" email verificationUrl;;
      mret {[ "success" := VBool true;
              "message" := VStr "Email logged to console (check server logs)";
              "development" := VBool true;
              "verificationUrl" := VStr verificationUrl ]}
  | Some mailer =>
      user ← processEnv "EMAIL_USER";
      let mailOptions :=
        {| from := dq +:+ "Seekon" +:+ dq +:+ " <" +:+ interp user +:+ ">";
           to := email;
           subject := "Verify Your Email Address";
           html := verificationHtml verificationUrl |} in
      tryCatch
        (sendMail mailer mailOptions;;
         console Log ["✅ Verification email sent to " +:+ email];;
         mret {[ "success" := VBool true;
                 "message" := VStr "Verification email sent successfully" ]})
        (fun error =>
           console Err ["❌ Error sending verification email:"; message error];;
           if connectionError error then
             console Log ["⚠️  Email server connection failed. Falling back to console logging..."];;
             logEmailToConsole "VERIFICATION EMAIL" email verificationUrl;;
             mret {[ "success" := VBool true;
                     "message" := VStr "Email logged to console (SMTP connection failed - check your network/firewall)";
                     "development" := VBool true;
                     "verificationUrl" := VStr verificationUrl ]}
           else
             mret {[ "success" := VBool false;
                     "message" := VStr "Failed to send verification email";
                     "error" := VStr (message error) ]})
  end.

Definition sendPasswordResetEmail (email token : string) : Run (gmap string value) :=
  clientUrl ← processEnv "CLIENT_URL";
  let resetUrl :=
    or_else clientUrl "http://localhost:5173" +:+ "/reset-password/" +:+ token in
  mailer ← getTransporter;
  match mailer with
  | None =>
      logEmailToConsole "PASSWORD RESET EMAIL" email resetUrl;;
      mret {[ "success" := VBool true;
              "message" := VStr "Email logged to console (check server logs)";
              "development" := VBool true;
              "resetUrl" := VStr resetUrl ]}
  | Some mailer =>
      user ← processEnv "EMAIL_USER";
      let mailOptions :=
        {| from := dq +:+ "Seekon" +:+ dq +:+ " <" +:+ interp user +:+ ">";
           to := email;
           subject := "Reset Your Password";
           html := resetHtml resetUrl |} in
      tryCatch
        (sendMail mailer mailOptions;;
         console Log ["✅ Password reset email sent to " +:+ email];;
         mret {[ "success" := VBool true;
                 "message" := VStr "Password reset email sent successfully" ]})
        (fun error =>
           console Err ["❌ Error sending password reset email:"; message error];;
           if connectionError error then
             console Log ["⚠️  Email server connection failed. Falling back to console logging..."];;
             logEmailToConsole "PASSWORD RESET EMAIL" email resetUrl;;
             mret {[ "success" := VBool true;
                     "message" := VStr "Email logged to console (SMTP connection failed - check your network/firewall)";
                     "development" := VBool true;
                     "resetUrl" := VStr resetUrl ]}
           else
             mret {[ "success" := VBool false;
                     "message" := VStr "Failed to send password reset email";
                     "error" := VStr (message error) ]})
  end.

End Call.

End Email.

(** ** [server/src/controllers/uploadController.js] *)

Module Upload.
Import Js Exec.

(** [req.file] as the disk-storage middleware leaves it: the path of the
    temporary file. *)
Record File : Type := { path : string }.

(** [req]: [file] is [None] when no file was uploaded. *)
Record Request : Type := { file : option File }.

(** What [uploadToCloudinary] resolves to. *)
Record UploadResult : Type := { url : string; public_id : string }.

(** An argument of [console.error]. *)
Inductive arg : Type :=
| AStr (s : string)
| AErr (e : error)
| AVal (v : value).

Inductive event : Type :=
| EvUpload (localPath : string)
| EvUnlink (localPath : string)
| EvEnv (name : string)
| EvConsoleError (args : list arg)
| EvResponse (status : Z) (body : value).

(** The collaborators during one request. [unlinkFails n p] is the fault,
    if any, that the [n]-th call of [fs.unlinkSync] in this process meets
    on [p] for a reason other than a missing file (permissions, a busy
    file). *)
Record World : Type := {
  env : gmap string string;
  cloudinary : string -> error + UploadResult;
  unlinkFails : nat -> string -> option error
}.

(** The temporary files on disk and the number of [unlinkSync] calls made
    so far. *)
Record State : Type := { files : gset string; unlinks : nat }.

Definition enoent (p : string) : error :=
  Error (Some "ENOENT") ("ENOENT: no such file or directory, unlink '" +:+ p +:+ "'").

Section Call.
Variable w : World.

Abbreviation Run := (Exec State event).

(** [process.env.NAME] *)
Definition processEnv (name : string) : Run (option string) :=
  emit (EvEnv name);; mret (env w !! name).

(** [await uploadToCloudinary(localPath)] *)
Definition uploadToCloudinary (localPath : string) : Run UploadResult :=
  emit (EvUpload localPath);;
  match cloudinary w localPath with
  | inl e => throw e
  | inr r => mret r
  end.

(** [fs.unlinkSync(localPath)] *)
Definition unlinkSync (localPath : string) : Run unit :=
  emit (EvUnlink localPath);;
  n ← gets unlinks;
  modify (fun s => {| files := files s; unlinks := S n |});;
  match unlinkFails w n localPath with
  | Some e => throw e
  | None =>
      present ← gets (fun s => bool_decide (localPath ∈ files s));
      if present : bool
      then modify (fun s => {| files := files s ∖ {[ localPath ]}; unlinks := unlinks s |})
      else throw (enoent localPath)
  end.

(** [console.error(...args)] *)
Definition consoleError (args : list arg) : Run unit :=
  emit (EvConsoleError args).

(** [res.status(status).json(body)] *)
Definition respond (status : Z) (body : value) : Run unit :=
  emit (EvResponse status body).

(** [v ? 'Set' : 'Not set'] *)
Definition setOrNot (v : option string) : value :=
  VStr (if truthy v then "Set" else "Not set").

Definition uploadFile (req : Request) : Run unit :=
  tryCatch
    (match file req with
     | None =>
         respond 400 (VObj {[ "success" := VBool false;
                              "message" := VStr "No file uploaded" ]})
     | Some f =>
         result ← uploadToCloudinary (path f);
         unlinkSync (path f);;
         respond 200 (VObj {[ "success" := VBool true;
                              "message" := VStr "File uploaded successfully";
                              "data" := VObj {[ "url" := VStr (url result);
                                                "publicId" := VStr (public_id result) ]} ]})
     end)
    (fun error =>
       match file req with
       | Some f =>
           if truthy (Some (path f)) then
             tryCatch
               (unlinkSync (path f))
               (fun unlinkError =>
                  consoleError [AStr "Error deleting temporary file:"; AErr unlinkError])
           else mret tt
       | None => mret tt
       end;;
       consoleError [AStr "Upload error details:"; AErr error];;
       cloud_name ← processEnv "CLOUDINARY_CLOUD_NAME";
       api_key ← processEnv "CLOUDINARY_API_KEY";
       api_secret ← processEnv "CLOUDINARY_API_SECRET";
       consoleError [AStr "Cloudinary config:";
                     AVal (VObj {[ "cloud_name" := setOrNot cloud_name;
                                   "api_key" := setOrNot api_key;
                                   "api_secret" := setOrNot api_secret ]})];;
       respond 500 (VObj {[ "success" := VBool false;
                            "message" := VStr (or_else (Some (message error)) "Upload failed") ]})).

End Call.

(** The responses sent during a request, in order. *)
Definition responses (t : list event) : list (Z * value) :=
  omap (fun e => match e with EvResponse st b => Some (st, b) | _ => None end) t.

(** The paths handed to [fs.unlinkSync] during a request, in order. *)
Definition unlinkAttempts (t : list event) : list string :=
  omap (fun e => match e with EvUnlink p => Some p | _ => None end) t.

(** The paths handed to [uploadToCloudinary] during a request. *)
Definition uploads (t : list event) : list string :=
  omap (fun e => match e with EvUpload p => Some p | _ => None end) t.

End Upload.

(** ** [deleteFile] of [server/src/controllers/uploadController.js] *)

Module DeleteFile.
Import Js Exec.

(** [req.params]: [publicId] is [None] when the route parameter is absent. *)
Record Request : Type := { publicId : option string }.

Inductive event : Type :=
| EvDestroy (id : string)
| EvResponse (status : Z) (body : value).

(** The object-storage collaborator during one request: [None] when
    [deleteFromCloudinary] resolves, [Some e] when it rejects with [e]. *)
Record World : Type := { deleteFromCloudinaryFails : string -> option error }.

Section Call.
Variable w : World.

Abbreviation Run := (Exec unit event).

(** [await deleteFromCloudinary(id)] *)
Definition deleteFromCloudinary (id : string) : Run unit :=
  emit (EvDestroy id);;
  match deleteFromCloudinaryFails w id with
  | Some e => throw e
  | None => mret tt
  end.

(** [res.status(status).json(body)] *)
Definition respond (status : Z) (body : value) : Run unit :=
  emit (EvResponse status body).

Definition deleteFile (req : Request) : Run unit :=
  tryCatch
    (match publicId req with
     | Some id =>
         if negb (truthy (Some id)) then
           respond 400 (VObj {[ "success" := VBool false;
                                "message" := VStr "Public ID is required" ]})
         else
           deleteFromCloudinary id;;
           respond 200 (VObj {[ "success" := VBool true;
                                "message" := VStr "File deleted successfully" ]})
     | None =>
         respond 400 (VObj {[ "success" := VBool false;
                              "message" := VStr "Public ID is required" ]})
     end)
    (fun error =>
       respond 500 (VObj {[ "success" := VBool false;
                            "message" := VStr (message error) ]})).

End Call.

(** The responses sent during a request, in order. *)
Definition responses (t : list event) : list (Z * value) :=
  omap (fun e => match e with EvResponse st b => Some (st, b) | _ => None end) t.

(** The identifiers handed to [deleteFromCloudinary], in order. *)
Definition destroys (t : list event) : list string :=
  omap (fun e => match e with EvDestroy id => Some id | _ => None end) t.

End DeleteFile.

(** ** [server/src/config/db.js] *)

Module Db.
Import Js Exec.

(** The options [connectDB] hands to [mongoose.connect]. *)
Record ConnectOptions : Type := { family : Z; serverSelectionTimeoutMS : Z }.

Inductive event : Type :=
| EvEnv (name : string)
| EvConnect (uri : option string) (opts : ConnectOptions)
| EvLog (text : string)
| EvError (text : string)
| EvExit (code : Z).

(** The environment and the database driver: [mongoose.connect] rejects
    with an error or resolves to a connection, of which [connectDB] reads
    [conn.connection.host]. *)
Record World : Type := {
  env : gmap string string;
  connect : option string -> ConnectOptions -> error + string
}.

(** The exit code of the process once [process.exit] has been called.
    Nothing follows [process.exit(1)] in [connectDB]. *)
Definition State : Type := option Z.

Section Call.
Variable w : World.

Abbreviation Run := (Exec State event).

(** [process.env.NAME] *)
Definition processEnv (name : string) : Run (option string) :=
  emit (EvEnv name);; mret (env w !! name).

(** [await mongoose.connect(uri, opts)], then [conn.connection.host] *)
Definition mongooseConnect (uri : option string) (opts : ConnectOptions) : Run string :=
  emit (EvConnect uri opts);;
  match connect w uri opts with
  | inl e => throw e
  | inr host => mret host
  end.

(** [process.exit(code)] *)
Definition processExit (code : Z) : Run unit :=
  emit (EvExit code);; modify (fun _ => Some code).

Definition connectDB : Run unit :=
  tryCatch
    (uri ← processEnv "MONGO_URI";
     host ← mongooseConnect uri {| family := 4; serverSelectionTimeoutMS := 5000 |};
     emit (EvLog ("✅ MongoDB Connected: " +:+ host)))
    (fun error =>
       emit (EvError ("❌ Error: " +:+ message error));;
       processExit 1).

End Call.

(** The connection attempts of a run. *)
Definition connects (t : list event) : list (option string * ConnectOptions) :=
  omap (fun e => match e with EvConnect u o => Some (u, o) | _ => None end) t.

End Db.

(** ** Observations on the effects of a call *)

Module Trace.
Import Js Exec Email.

(** The invocations of [logEmailToConsole], with their arguments. *)
Definition fallbackCalls (t : list event) : list (string * string * string) :=
  omap (fun e => match e with
                 | EvLogEmailToConsole type to url => Some (type, to, url)
                 | _ => None
                 end) t.

(** The messages handed to [sendMail]. *)
Definition sends (t : list event) : list (Transport * MailOptions) :=
  omap (fun e => match e with EvSendMail m o => Some (m, o) | _ => None end) t.

(** The configurations handed to [createTransport]. *)
Definition creations (t : list event) : list TransportConfig :=
  omap (fun e => match e with EvCreateTransport c => Some c | _ => None end) t.

(** The modules asked of [require]. *)
Definition requires (t : list event) : list string :=
  omap (fun e => match e with EvRequire n => Some n | _ => None end) t.

(** A later call made in some world: which operation, for whom, with
    which token. *)
Inductive call : Type :=
| Verification (w : World) (email token : string)
| PasswordReset (w : World) (email token : string).

Definition perform (c : call) : Exec State event (gmap string value) :=
  match c with
  | Verification w email token => sendVerificationEmail w email token
  | PasswordReset w email token => sendPasswordResetEmail w email token
  end.

(** The calls of a list made one after the other on the module state:
    the completion and the effects of each, and the final state. *)
Fixpoint performAll (cs : list call) (s : State)
  : list (completion (gmap string value) * list event) * State :=
  match cs with
  | [] => ([], s)
  | c :: rest =>
      let '(r, s1, t) := perform c s in
      let '(rs, s2) := performAll rest s1 in
      ((r, t) :: rs, s2)
  end.

(** Successive calls of [getTransporter], each in its own world. *)
Fixpoint resolveAll (ws : list World) (s : State)
  : list (completion (option Transport) * list event) * State :=
  match ws with
  | [] => ([], s)
  | w :: rest =>
      let '(r, s1, t) := getTransporter w s in
      let '(rs, s2) := resolveAll rest s1 in
      ((r, t) :: rs, s2)
  end.

(** The outcome objects of the source, by case. *)
Definition fallbackOutcome (urlField url : string) : gmap string value :=
  {[ "success" := VBool true;
     "message" := VStr "Email logged to console (check server logs)";
     "development" := VBool true;
     urlField := VStr url ]}.

Definition connectionFallbackOutcome (urlField url : string) : gmap string value :=
  {[ "success" := VBool true;
     "message" := VStr "Email logged to console (SMTP connection failed - check your network/firewall)";
     "development" := VBool true;
     urlField := VStr url ]}.

Definition sentOutcome (msg : string) : gmap string value :=
  {[ "success" := VBool true; "message" := VStr msg ]}.

Definition failedOutcome (msg detail : string) : gmap string value :=
  {[ "success" := VBool false; "message" := VStr msg; "error" := VStr detail ]}.

(** The base of the action links, [process.env.CLIENT_URL || 'http://localhost:5173']. *)
Definition clientUrl (w : World) : string :=
  or_else (env w !! "CLIENT_URL") "http://localhost:5173".

(** The message each operation builds for [sendMail]. *)
Definition verificationMail (w : World) (email url : string) : MailOptions :=
  {| from := dq +:+ "Seekon" +:+ dq +:+ " <" +:+ interp (env w !! "EMAIL_USER") +:+ ">";
     to := email;
     subject := "Verify Your Email Address";
     html := verificationHtml url |}.

Definition resetMail (w : World) (email url : string) : MailOptions :=
  {| from := dq +:+ "Seekon" +:+ dq +:+ " <" +:+ interp (env w !! "EMAIL_USER") +:+ ">";
     to := email;
     subject := "Reset Your Password";
     html := resetHtml url |}.

(** The shape of the outcome objects the two operations build: [success]
    and [message] always, [development] only as [true], the link under
    [urlField], and [error]; nothing else. *)
Definition outcomeShape (urlField : string) (o : gmap string value) : Prop :=
  (exists b, o !! "success" = Some (VBool b))
  /\ (exists m, o !! "message" = Some (VStr m))
  /\ (o !! "development" = None \/ o !! "development" = Some (VBool true))
  /\ (o !! urlField = None \/ exists u, o !! urlField = Some (VStr u))
  /\ (o !! "error" = None \/ exists e, o !! "error" = Some (VStr e))
  /\ dom o ⊆ {[ "success"; "message"; "development"; urlField; "error" ]}.

(** The events of one call of [logEmailToConsole]. *)
Definition banner (type to url : string) : list event :=
  snd (logEmailToConsole type to url init).

(** The configuration [getTransporter] hands to [createTransport] in a
    world. *)
Definition transportConfig (w : World) : TransportConfig :=
  {| host := or_else (env w !! "EMAIL_HOST") "smtp.gmail.com";
     port := parseInt (or_else (env w !! "EMAIL_PORT") "587");
     secure := strict_eq (env w !! "EMAIL_PORT") "465";
     auth_user := env w !! "EMAIL_USER";
     auth_pass := env w !! "EMAIL_PASS";
     tls_rejectUnauthorized := false;
     connectionTimeout := 10000;
     greetingTimeout := 10000;
     socketTimeout := 10000 |}.

(** The link each operation builds. *)
Definition verificationUrl (w : World) (token : string) : string :=
  clientUrl w +:+ "/verify-email/" +:+ token.

Definition resetUrl (w : World) (token : string) : string :=
  clientUrl w +:+ "/reset-password/" +:+ token.

(** The parts of a call. *)
Definition worldOf (c : call) : World :=
  match c with Verification w _ _ | PasswordReset w _ _ => w end.

Definition recipient (c : call) : string :=
  match c with Verification _ email _ | PasswordReset _ email _ => email end.

Definition tokenOf (c : call) : string :=
  match c with Verification _ _ token | PasswordReset _ _ token => token end.

(** What differs between the two operations: the title of the console
    banner, the outcome field of the link, the link, the message sent and
    the two outcome messages. *)
Definition title (c : call) : string :=
  match c with
  | Verification _ _ _ => "VERIFICATION EMAIL"
  | PasswordReset _ _ _ => "PASSWORD RESET EMAIL"
  end.

Definition urlField (c : call) : string :=
  match c with
  | Verification _ _ _ => "verificationUrl"
  | PasswordReset _ _ _ => "resetUrl"
  end.

Definition actionUrl (c : call) : string :=
  match c with
  | Verification w _ token => verificationUrl w token
  | PasswordReset w _ token => resetUrl w token
  end.

Definition mailOf (c : call) : MailOptions :=
  match c with
  | Verification w email token => verificationMail w email (verificationUrl w token)
  | PasswordReset w email token => resetMail w email (resetUrl w token)
  end.

Definition sentMessage (c : call) : string :=
  match c with
  | Verification _ _ _ => "Verification email sent successfully"
  | PasswordReset _ _ _ => "Password reset email sent successfully"
  end.

Definition failureMessage (c : call) : string :=
  match c with
  | Verification _ _ _ => "Failed to send verification email"
  | PasswordReset _ _ _ => "Failed to send password reset email"
  end.

(** A call that only logs to the console: its completion and effects. *)
Definition consoleRun (c : call) : completion (gmap string value) * list event :=
  (Normal (fallbackOutcome (urlField c) (actionUrl c)),
   Email.EvEnv "CLIENT_URL" :: banner (title c) (recipient c) (actionUrl c)).

(** The state in which the resolver has found no transport. *)
Definition unavailable : State := {| transporter := None; nodemailerChecked := true |}.

(** Every link a run shows is [url]: in the console banner, in the body
    of the message sent and in the outcome object. *)
Definition linksAre (url : string) (field : string) (body : string -> string)
    (run : completion (gmap string value) * State * list event) : Prop :=
  Forall (fun x => snd x = url) (fallbackCalls (snd run))
  /\ Forall (fun x => html (snd x) = body url) (sends (snd run))
  /\ exists o, fst (fst run) = Normal o
       /\ (o !! field = None \/ o !! field = Some (VStr url)).

(** The same call in a world whose credentials have been removed. *)
Definition withoutCredentials (w : World) : World :=
  {| env := delete "EMAIL_PASS" (delete "EMAIL_USER" (env w));
     requireFails := requireFails w;
     createTransportFails := createTransportFails w;
     sendMailFails := sendMailFails w |}.

Definition uncredentialed (c : call) : call :=
  match c with
  | Verification w email token => Verification (withoutCredentials w) email token
  | PasswordReset w email token => PasswordReset (withoutCredentials w) email token
  end.

(** The environment variables read, in order. *)
Definition envReads (t : list event) : list string :=
  omap (fun e => match e with Email.EvEnv n => Some n | _ => None end) t.

(** All the effects of a sequence of calls, in order. *)
Definition effects {A : Type} (runs : list (A * list event)) : list event :=
  concat (List.map snd runs).

(** The state in which the handle [h] is cached. *)
Definition cached (h : Transport) : State :=
  {| transporter := Some h; nodemailerChecked := true |}.

End Trace.

(** ** The specification's wording, for comparison with the code *)

Module Spec.
Import Js Email.

(** NotificationOutcome as the specification words it: [{success: bool,
    message: string, developmentFlag: bool, actionUrl: optional string,
    error: optional string}]. *)
Definition NotificationOutcome (o : gmap string value) : Prop :=
  (exists b, o !! "success" = Some (VBool b))
  /\ (exists m, o !! "message" = Some (VStr m))
  /\ (exists d, o !! "developmentFlag" = Some (VBool d))
  /\ (o !! "actionUrl" = None \/ exists u, o !! "actionUrl" = Some (VStr u))
  /\ (o !! "error" = None \/ exists e, o !! "error" = Some (VStr e))
  /\ dom o ⊆ {[ "success"; "message"; "developmentFlag"; "actionUrl"; "error" ]}.

(** The configured client URL as the specification words it: the value
    of CLIENT_URL, and the default when it is unset. *)
Definition configuredClientUrl (w : World) : string :=
  match env w !! "CLIENT_URL" with
  | Some u => u
  | None => "http://localhost:5173"
  end.

(** The configured port as the specification words it: the parsed
    integer of EMAIL_PORT, 587 when it is unset. *)
Definition configuredPort (w : World) : number :=
  match env w !! "EMAIL_PORT" with
  | Some p => parseInt p
  | None => Int 587
  end.

End Spec.

(** ** Sample worlds and requests *)

Module Samples.
Import Js Email.

(** Nothing configured, nodemailer installed. *)
Definition bare : World :=
  {| env := ∅;
     requireFails := fun _ => None;
     createTransportFails := fun _ => None;
     sendMailFails := fun _ _ => None |}.

(** Credentials set, every collaborator succeeds, except that [sendMail]
    meets the given fault. *)
Definition live (vars : gmap string string) (fault : option error) : World :=
  {| env := vars;
     requireFails := fun _ => None;
     createTransportFails := fun _ => None;
     sendMailFails := fun _ _ => fault |}.

Definition credentials : gmap string string :=
  {[ "EMAIL_USER" := "shop@example.com"; "EMAIL_PASS" := "app-password" ]}.

(** Credentials set, but [createTransport] throws. *)
Definition broken : World :=
  {| env := credentials;
     requireFails := fun _ => None;
     createTransportFails := fun _ => Some (Error None "Invalid transport options");
     sendMailFails := fun _ _ => None |}.

Definition refused : error := Error (Some "ECONNREFUSED") "connect ECONNREFUSED 127.0.0.1:587".
Definition rejected : error := Error (Some "EENVELOPE") "No recipients defined".
Definition denied : error := Error (Some "EPERM") "EPERM: operation not permitted, unlink 'uploads/tmp-1.png'".

(** An upload that succeeds while the temporary file cannot be removed. *)
Definition stuck : Upload.World :=
  {| Upload.env := ∅;
     Upload.cloudinary := fun _ =>
       inr {| Upload.url := "https://res.cloudinary.com/seekon/tmp-1.png";
              Upload.public_id := "seekon/tmp-1" |};
     Upload.unlinkFails := fun _ _ => Some denied |}.

Definition request : Upload.Request :=
  {| Upload.file := Some {| Upload.path := "uploads/tmp-1.png" |} |}.

Definition disk : Upload.State :=
  {| Upload.files := {[ "uploads/tmp-1.png" ]}; Upload.unlinks := 0 |}.

(** Credentials set, but nodemailer is not installed. *)
Definition uninstalled : World :=
  {| env := credentials;
     requireFails := fun _ => Some (Error (Some "MODULE_NOT_FOUND") "Cannot find module 'nodemailer'");
     createTransportFails := fun _ => None;
     sendMailFails := fun _ _ => None |}.

(** An upload that Cloudinary refuses, on a disk without faults. *)
Definition refusing : Upload.World :=
  {| Upload.env := ∅;
     Upload.cloudinary := fun _ => inl (Error None "Invalid image file");
     Upload.unlinkFails := fun _ _ => None |}.

(** An upload that succeeds on a disk without faults. *)
Definition smooth : Upload.World :=
  {| Upload.env := ∅;
     Upload.cloudinary := fun _ =>
       inr {| Upload.url := "https://res.cloudinary.com/seekon/tmp-1.png";
              Upload.public_id := "seekon/tmp-1" |};
     Upload.unlinkFails := fun _ _ => None |}.

End Samples.

(** * Properties *)

Import Js Exec Email Trace.

(** Unfolds the monad and the primitive operations, leaving the two
    dispatchers' call of [getTransporter] folded. *)
Ltac run_ops :=
  cbv beta iota zeta delta
    [loadNodemailer require createTransport sendMail console processEnv
     logEmailToConsole sendVerificationEmail sendPasswordResetEmail banner
     mbind mret exec_bind exec_ret bind ret throw tryCatch gets modify emit
     set_transporter set_nodemailerChecked transporter nodemailerChecked
     verificationUrl resetUrl clientUrl verificationMail resetMail
     app snd fst].

Ltac run := unfold getTransporter; run_ops.

(** ** The transport resolver *)

Lemma getTransporter_cached w t c :
  getTransporter w {| transporter := Some t; nodemailerChecked := c |}
  = (Normal (Some t), {| transporter := Some t; nodemailerChecked := c |}, []).
Proof. reflexivity. Qed.

Lemma getTransporter_checked w :
  getTransporter w {| transporter := None; nodemailerChecked := true |}
  = (Normal None, {| transporter := None; nodemailerChecked := true |}, []).
Proof. reflexivity. Qed.

(** Whatever the world and the state, the resolver completes normally, its
    result is the cached handle of the state it leaves, it neither sends nor
    prints a banner, and that state answers every later call by itself. *)
Lemma getTransporter_total w s :
  exists r s' t,
    getTransporter w s = (Normal r, s', t)
    /\ transporter s' = r
    /\ fallbackCalls t = []
    /\ sends t = []
    /\ (forall w', getTransporter w' s' = (Normal r, s', [])).
Proof.
  destruct s as [[t|] [|]]; try (do 3 eexists; split; [reflexivity | auto]).
  run.
  destruct (requireFails w "nodemailer");
    [do 3 eexists; split; [reflexivity | auto] |].
  destruct (truthy (env w !! "EMAIL_USER"));
    [| do 3 eexists; split; [reflexivity | auto]].
  destruct (truthy (env w !! "EMAIL_PASS"));
    [| do 3 eexists; split; [reflexivity | auto]].
  match goal with
  | |- context [createTransportFails w ?c] => destruct (createTransportFails w c)
  end; do 3 eexists; (split; [reflexivity | auto]).
Qed.

(** Without a cached handle and without both credentials, the resolver
    answers that no transport is available. *)
Lemma getTransporter_unconfigured w s :
  transporter s = None ->
  truthy (env w !! "EMAIL_USER") && truthy (env w !! "EMAIL_PASS") = false ->
  exists s' t,
    getTransporter w s = (Normal None, s', t)
    /\ transporter s' = None
    /\ fallbackCalls t = [] /\ sends t = [] /\ creations t = [].
Proof.
  destruct s as [t [|]]; simpl; intros -> Hc;
    [do 2 eexists; split; [reflexivity | auto] |].
  run.
  destruct (requireFails w "nodemailer");
    [do 2 eexists; split; [reflexivity | auto] |].
  destruct (truthy (env w !! "EMAIL_USER"));
    [| do 2 eexists; split; [reflexivity | auto]].
  destruct (truthy (env w !! "EMAIL_PASS")); [discriminate |].
  do 2 eexists; split; [reflexivity | auto].
Qed.

(** What the first resolution does when nodemailer loads and both
    credentials are truthy: one call of [createTransport] on the
    configuration of the world. *)
Lemma getTransporter_configured w :
  requireFails w "nodemailer" = None ->
  truthy (env w !! "EMAIL_USER") = true ->
  truthy (env w !! "EMAIL_PASS") = true ->
  exists r t,
    getTransporter w init = (Normal r, {| transporter := r; nodemailerChecked := true |}, t)
    /\ creations t = [transportConfig w]
    /\ r = match createTransportFails w (transportConfig w) with
           | Some _ => None
           | None => Some {| options := transportConfig w |}
           end.
Proof.
  intros Hr Hu Hp. run. rewrite Hr, Hu, Hp.
  fold (transportConfig w).
  destruct (createTransportFails w (transportConfig w));
    do 2 eexists; (split; [reflexivity | auto]).
Qed.

(** Every configuration the resolver hands to [createTransport] is the one
    of the world it runs in. *)
Lemma getTransporter_creations w s :
  forall cfg, cfg ∈ creations (snd (getTransporter w s)) -> cfg = transportConfig w.
Proof.
  intros cfg.
  assert (Hnil : cfg ∈ @nil TransportConfig -> cfg = transportConfig w)
    by (intros H; inversion H).
  destruct s as [[t|] [|]]; [exact Hnil | exact Hnil | exact Hnil |].
  run.
  destruct (requireFails w "nodemailer"); [exact Hnil |].
  destruct (truthy (env w !! "EMAIL_USER")); [| exact Hnil].
  destruct (truthy (env w !! "EMAIL_PASS")); [| exact Hnil].
  fold (transportConfig w).
  destruct (createTransportFails w (transportConfig w)); simpl;
    intros H; apply list_elem_of_singleton in H; exact H.
Qed.

(** ** The two dispatchers, path by path *)

(** States a hypothesis on [sendMailFails] on the message as the source
    builds it. *)
Ltac links H :=
  unfold verificationMail, resetMail, verificationUrl, resetUrl, clientUrl in H.

Section Paths.
Variables (w : World) (s s' : State) (t0 : list event) (email token : string).

Lemma sendVerificationEmail_unavailable :
  getTransporter w s = (Normal None, s', t0) ->
  sendVerificationEmail w email token s
  = (Normal (fallbackOutcome "verificationUrl" (verificationUrl w token)), s',
     EvEnv "CLIENT_URL" :: t0
       ++ banner "VERIFICATION EMAIL" email (verificationUrl w token)).
Proof. intros H. run_ops. rewrite H. reflexivity. Qed.

Lemma sendPasswordResetEmail_unavailable :
  getTransporter w s = (Normal None, s', t0) ->
  sendPasswordResetEmail w email token s
  = (Normal (fallbackOutcome "resetUrl" (resetUrl w token)), s',
     EvEnv "CLIENT_URL" :: t0
       ++ banner "PASSWORD RESET EMAIL" email (resetUrl w token)).
Proof. intros H. run_ops. rewrite H. reflexivity. Qed.

Variable mailer : Transport.
Hypothesis available : getTransporter w s = (Normal (Some mailer), s', t0).

Lemma sendVerificationEmail_sent :
  sendMailFails w mailer (verificationMail w email (verificationUrl w token)) = None ->
  sendVerificationEmail w email token s
  = (Normal (sentOutcome "Verification email sent successfully"), s',
     EvEnv "CLIENT_URL" :: t0
       ++ [EvEnv "EMAIL_USER";
           EvSendMail mailer (verificationMail w email (verificationUrl w token));
           EvConsole Log ["✅ Verification email sent to " +:+ email]]).
Proof. intros H. links H. run_ops. rewrite available. run_ops. rewrite H. reflexivity. Qed.

Lemma sendVerificationEmail_connection_failed e :
  sendMailFails w mailer (verificationMail w email (verificationUrl w token)) = Some e ->
  connectionError e = true ->
  sendVerificationEmail w email token s
  = (Normal (connectionFallbackOutcome "verificationUrl" (verificationUrl w token)), s',
     EvEnv "CLIENT_URL" :: t0
       ++ [EvEnv "EMAIL_USER";
           EvSendMail mailer (verificationMail w email (verificationUrl w token));
           EvConsole Err ["❌ Error sending verification email:"; message e];
           EvConsole Log ["⚠️  Email server connection failed. Falling back to console logging..."]]
       ++ banner "VERIFICATION EMAIL" email (verificationUrl w token)).
Proof. intros H Hc. links H. run_ops. rewrite available. run_ops. rewrite H, Hc. reflexivity. Qed.

Lemma sendVerificationEmail_failed e :
  sendMailFails w mailer (verificationMail w email (verificationUrl w token)) = Some e ->
  connectionError e = false ->
  sendVerificationEmail w email token s
  = (Normal (failedOutcome "Failed to send verification email" (message e)), s',
     EvEnv "CLIENT_URL" :: t0
       ++ [EvEnv "EMAIL_USER";
           EvSendMail mailer (verificationMail w email (verificationUrl w token));
           EvConsole Err ["❌ Error sending verification email:"; message e]]).
Proof. intros H Hc. links H. run_ops. rewrite available. run_ops. rewrite H, Hc. reflexivity. Qed.

Lemma sendPasswordResetEmail_sent :
  sendMailFails w mailer (resetMail w email (resetUrl w token)) = None ->
  sendPasswordResetEmail w email token s
  = (Normal (sentOutcome "Password reset email sent successfully"), s',
     EvEnv "CLIENT_URL" :: t0
       ++ [EvEnv "EMAIL_USER";
           EvSendMail mailer (resetMail w email (resetUrl w token));
           EvConsole Log ["✅ Password reset email sent to " +:+ email]]).
Proof. intros H. links H. run_ops. rewrite available. run_ops. rewrite H. reflexivity. Qed.

Lemma sendPasswordResetEmail_connection_failed e :
  sendMailFails w mailer (resetMail w email (resetUrl w token)) = Some e ->
  connectionError e = true ->
  sendPasswordResetEmail w email token s
  = (Normal (connectionFallbackOutcome "resetUrl" (resetUrl w token)), s',
     EvEnv "CLIENT_URL" :: t0
       ++ [EvEnv "EMAIL_USER";
           EvSendMail mailer (resetMail w email (resetUrl w token));
           EvConsole Err ["❌ Error sending password reset email:"; message e];
           EvConsole Log ["⚠️  Email server connection failed. Falling back to console logging..."]]
       ++ banner "PASSWORD RESET EMAIL" email (resetUrl w token)).
Proof. intros H Hc. links H. run_ops. rewrite available. run_ops. rewrite H, Hc. reflexivity. Qed.

Lemma sendPasswordResetEmail_failed e :
  sendMailFails w mailer (resetMail w email (resetUrl w token)) = Some e ->
  connectionError e = false ->
  sendPasswordResetEmail w email token s
  = (Normal (failedOutcome "Failed to send password reset email" (message e)), s',
     EvEnv "CLIENT_URL" :: t0
       ++ [EvEnv "EMAIL_USER";
           EvSendMail mailer (resetMail w email (resetUrl w token));
           EvConsole Err ["❌ Error sending password reset email:"; message e]]).
Proof. intros H Hc. links H. run_ops. rewrite available. run_ops. rewrite H, Hc. reflexivity. Qed.

End Paths.

(** ** Reading the effects and the outcome objects *)

Lemma fallbackCalls_app (t1 t2 : list event) :
  fallbackCalls (t1 ++ t2) = fallbackCalls t1 ++ fallbackCalls t2.
Proof. apply omap_app. Qed.

Lemma sends_app (t1 t2 : list event) : sends (t1 ++ t2) = sends t1 ++ sends t2.
Proof. apply omap_app. Qed.

Lemma fallbackCalls_banner type to url :
  fallbackCalls (banner type to url) = [(type, to, url)].
Proof. reflexivity. Qed.

Lemma connectionError_true (e : error) :
  connectionError e = true <->
  code e = Some "ESOCKET" \/ code e = Some "ETIMEDOUT" \/ code e = Some "ECONNREFUSED".
Proof.
  unfold connectionError, strict_eq. destruct (code e) as [c|].
  - rewrite !orb_true_iff, !String.eqb_eq. split.
    + intros [[->| ->]| ->]; auto.
    + intros [H|[H|H]]; inversion H; auto.
  - simpl. split; [discriminate | intros [H|[H|H]]; discriminate].
Qed.

Lemma connectionError_false (e : error) :
  connectionError e = false <->
  code e <> Some "ESOCKET" /\ code e <> Some "ETIMEDOUT" /\ code e <> Some "ECONNREFUSED".
Proof.
  rewrite <- not_true_iff_false, connectionError_true. tauto.
Qed.

(** Lookups in the four outcome objects are settled by computation, their
    key sets by rewriting. *)
Ltac lookups :=
  repeat split;
  try (vm_compute; eauto; fail);
  try (unfold fallbackOutcome, connectionFallbackOutcome, sentOutcome, failedOutcome;
       rewrite ?dom_insert_L, ?dom_singleton_L, ?dom_empty_L; set_solver).

Lemma outcomeShape_verification u e :
  outcomeShape "verificationUrl" (fallbackOutcome "verificationUrl" u)
  /\ outcomeShape "verificationUrl" (connectionFallbackOutcome "verificationUrl" u)
  /\ outcomeShape "verificationUrl" (sentOutcome "Verification email sent successfully")
  /\ outcomeShape "verificationUrl" (failedOutcome "Failed to send verification email" e).
Proof. unfold outcomeShape. lookups. Qed.

Lemma outcomeShape_reset u e :
  outcomeShape "resetUrl" (fallbackOutcome "resetUrl" u)
  /\ outcomeShape "resetUrl" (connectionFallbackOutcome "resetUrl" u)
  /\ outcomeShape "resetUrl" (sentOutcome "Password reset email sent successfully")
  /\ outcomeShape "resetUrl" (failedOutcome "Failed to send password reset email" e).
Proof. unfold outcomeShape. lookups. Qed.

(** ** Either operation, as a call *)

(** Reads the banner calls or the messages sent off a trace built by
    concatenation. *)
Lemma fallbackCalls_cons (e : event) (t : list event) :
  fallbackCalls (e :: t)
  = match e with
    | EvLogEmailToConsole type to url => (type, to, url) :: fallbackCalls t
    | _ => fallbackCalls t
    end.
Proof. destruct e; reflexivity. Qed.

Lemma sends_cons (e : event) (t : list event) :
  sends (e :: t)
  = match e with
    | EvSendMail m o => (m, o) :: sends t
    | _ => sends t
    end.
Proof. destruct e; reflexivity. Qed.

Lemma sends_banner type to url : sends (banner type to url) = [].
Proof. reflexivity. Qed.

Ltac observe :=
  rewrite ?fallbackCalls_app, ?sends_app, ?fallbackCalls_cons, ?sends_cons,
    ?fallbackCalls_app, ?sends_app, ?fallbackCalls_cons, ?sends_cons,
    ?fallbackCalls_banner, ?sends_banner;
  cbv beta iota;
  change (fallbackCalls []) with (@nil (string * string * string));
  change (sends []) with (@nil (Transport * MailOptions));
  rewrite ?app_nil_r; reflexivity.

Section Perform.
Variables (c : call) (s s' : State) (t0 : list event).

Lemma perform_unavailable :
  getTransporter (worldOf c) s = (Normal None, s', t0) ->
  perform c s
  = (Normal (fallbackOutcome (urlField c) (actionUrl c)), s',
     EvEnv "CLIENT_URL" :: t0 ++ banner (title c) (recipient c) (actionUrl c)).
Proof.
  destruct c as [w email token | w email token];
    cbn [worldOf perform urlField actionUrl title recipient]; intros H.
  - exact (sendVerificationEmail_unavailable _ _ _ _ _ _ H).
  - exact (sendPasswordResetEmail_unavailable _ _ _ _ _ _ H).
Qed.

Variable mailer : Transport.
Hypothesis available : getTransporter (worldOf c) s = (Normal (Some mailer), s', t0).

Lemma perform_sent :
  sendMailFails (worldOf c) mailer (mailOf c) = None ->
  perform c s
  = (Normal (sentOutcome (sentMessage c)), s',
     EvEnv "CLIENT_URL" :: t0
       ++ [EvEnv "EMAIL_USER"; EvSendMail mailer (mailOf c);
           EvConsole Log [match c with
                          | Verification _ _ _ => "✅ Verification email sent to "
                          | PasswordReset _ _ _ => "✅ Password reset email sent to "
                          end +:+ recipient c]]).
Proof.
  revert available. destruct c as [w email token | w email token];
    cbn [worldOf mailOf perform sentMessage recipient]; intros Ha H.
  - exact (sendVerificationEmail_sent _ _ _ _ _ _ _ Ha H).
  - exact (sendPasswordResetEmail_sent _ _ _ _ _ _ _ Ha H).
Qed.

Lemma perform_connection_failed e :
  sendMailFails (worldOf c) mailer (mailOf c) = Some e ->
  connectionError e = true ->
  exists t,
    perform c s = (Normal (connectionFallbackOutcome (urlField c) (actionUrl c)), s', t)
    /\ fallbackCalls t = fallbackCalls t0 ++ [(title c, recipient c, actionUrl c)]
    /\ sends t = sends t0 ++ [(mailer, mailOf c)].
Proof.
  revert available. destruct c as [w email token | w email token];
    cbn [worldOf mailOf perform urlField actionUrl title recipient];
    intros Ha H Hc; eexists.
  - split; [exact (sendVerificationEmail_connection_failed _ _ _ _ _ _ _ Ha e H Hc) |].
    split; observe.
  - split; [exact (sendPasswordResetEmail_connection_failed _ _ _ _ _ _ _ Ha e H Hc) |].
    split; observe.
Qed.

Lemma perform_failed e :
  sendMailFails (worldOf c) mailer (mailOf c) = Some e ->
  connectionError e = false ->
  exists t,
    perform c s = (Normal (failedOutcome (failureMessage c) (message e)), s', t)
    /\ fallbackCalls t = fallbackCalls t0
    /\ sends t = sends t0 ++ [(mailer, mailOf c)].
Proof.
  revert available. destruct c as [w email token | w email token];
    cbn [worldOf mailOf perform failureMessage]; intros Ha H Hc; eexists.
  - split; [exact (sendVerificationEmail_failed _ _ _ _ _ _ _ Ha e H Hc) |].
    split; observe.
  - split; [exact (sendPasswordResetEmail_failed _ _ _ _ _ _ _ Ha e H Hc) |].
    split; observe.
Qed.

End Perform.

(** Every call completes normally with one of the four outcome objects and
    leaves the state the resolver left. *)
Lemma perform_total (c : call) (s : State) :
  exists o r s' t,
    perform c s = (Normal o, s', t)
    /\ (forall w', getTransporter w' s' = (Normal r, s', []))
    /\ (o = fallbackOutcome (urlField c) (actionUrl c)
        \/ o = connectionFallbackOutcome (urlField c) (actionUrl c)
        \/ o = sentOutcome (sentMessage c)
        \/ exists e, o = failedOutcome (failureMessage c) e).
Proof.
  destruct (getTransporter_total (worldOf c) s) as (r & s' & t0 & Hg & _ & _ & _ & Hm).
  destruct r as [mailer|].
  - destruct (sendMailFails (worldOf c) mailer (mailOf c)) as [e|] eqn:Hs.
    + destruct (connectionError e) eqn:Hc.
      * destruct (perform_connection_failed c s s' t0 mailer Hg e Hs Hc) as (t & Hp & _).
        eexists _, _, s', t. split; [exact Hp | split; [exact Hm |]].
        right; left; reflexivity.
      * destruct (perform_failed c s s' t0 mailer Hg e Hs Hc) as (t & Hp & _).
        eexists _, _, s', t. split; [exact Hp | split; [exact Hm |]].
        right; right; right. exists (message e). reflexivity.
    + eexists _, _, s', _. split; [exact (perform_sent c s s' t0 mailer Hg Hs) |].
      split; [exact Hm |]. right; right; left; reflexivity.
  - eexists _, _, s', _. split; [exact (perform_unavailable c s s' t0 Hg) |].
    split; [exact Hm |]. left; reflexivity.
Qed.

(** ** The outcome contract *)

(** C1, as the specification words it, fails: with nothing configured the
    verification call returns a fallback outcome whose link is stored under
    [verificationUrl]; the object has no [actionUrl] and no
    [developmentFlag] field, so it is not a NotificationOutcome. *)
Lemma fallback_outcome_has_no_actionUrl :
  exists o s' t,
    sendVerificationEmail Samples.bare "user@example.com" "abc123" init = (Normal o, s', t)
    /\ o !! "development" = Some (VBool true)
    /\ o !! "verificationUrl" = Some (VStr "http://localhost:5173/verify-email/abc123")
    /\ o !! "actionUrl" = None
    /\ ~ Spec.NotificationOutcome o.
Proof.
  do 3 eexists. split; [reflexivity |].
  repeat split; try reflexivity.
  intros (_ & _ & [d Hd] & _). vm_compute in Hd. discriminate Hd.
Qed.

(** C1 (amended): every call of [sendVerificationEmail] and of
    [sendPasswordResetEmail] returns an object with a boolean [success] and
    a string [message], with [development] present only as [true], with an
    optional string [error], with the link as an optional string under
    [verificationUrl] (verification) or [resetUrl] (reset), and with no other
    field, in particular no [actionUrl]; an outcome that has [development]
    carries the action URL of the call under that link field. *)
Theorem outcome_object_shape (c : call) (s : State) :
  exists o s' t,
    perform c s = (Normal o, s', t)
    /\ outcomeShape (urlField c) o
    /\ o !! "actionUrl" = None
    /\ o !! "developmentFlag" = None
    /\ (o !! "development" = None \/ o !! urlField c = Some (VStr (actionUrl c))).
Proof.
  destruct (perform_total c s) as (o & r & s' & t & Hp & _ & Ho).
  exists o, s', t. split; [exact Hp |].
  destruct c as [w email token | w email token];
    cbn [urlField sentMessage failureMessage] in *;
    [ destruct (outcomeShape_verification (actionUrl (Verification w email token)) EmptyString)
        as (S1 & S2 & S3 & _)
    | destruct (outcomeShape_reset (actionUrl (PasswordReset w email token)) EmptyString)
        as (S1 & S2 & S3 & _) ];
    (destruct Ho as [-> | [-> | [-> | [e ->]]]];
     [ split; [exact S1 | repeat split; try reflexivity; right; reflexivity]
     | split; [exact S2 | repeat split; try reflexivity; right; reflexivity]
     | split; [exact S3 | repeat split; try reflexivity; left; reflexivity]
     | split; [first [ apply (outcomeShape_verification EmptyString e)
                     | apply (outcomeShape_reset EmptyString e) ]
              | repeat split; try reflexivity; left; reflexivity] ]).
Qed.

(** ** Fallback when the credentials are missing *)

(** C2, as stated, fails once a transport has been cached: a first call with
    credentials creates the handle, and a later call made while EMAIL_USER
    and EMAIL_PASS are unset still sends through it; when that send is
    rejected the outcome has [success: false], no [development], and nothing
    is logged by the fallback logger. *)
Lemma cached_transport_outlives_credentials :
  let first := sendVerificationEmail (Samples.live Samples.credentials None)
                 "user@example.com" "abc123" init in
  let later := Samples.live ∅ (Some Samples.rejected) in
  let second := sendVerificationEmail later "user@example.com" "abc123" (snd (fst first)) in
  env later !! "EMAIL_USER" = None
  /\ env later !! "EMAIL_PASS" = None
  /\ exists o, fst (fst second) = Normal o
       /\ o !! "success" = Some (VBool false)
       /\ o !! "development" = None
       /\ fallbackCalls (snd second) = [].
Proof.
  cbv zeta. split; [reflexivity |]. split; [reflexivity |].
  eexists. split; [reflexivity |]. repeat split; reflexivity.
Qed.

(** An unset credential makes the test of line 29 fail. *)
Lemma missing_credentials_not_truthy (w : World) :
  env w !! "EMAIL_USER" = None \/ env w !! "EMAIL_PASS" = None ->
  truthy (env w !! "EMAIL_USER") && truthy (env w !! "EMAIL_PASS") = false.
Proof.
  intros [-> | ->]; [reflexivity | apply andb_false_r].
Qed.

(** C2 (amended): for every call of either operation made while EMAIL_USER
    or EMAIL_PASS is unset and no transport handle has been cached by an
    earlier call, the outcome has [success === true] and
    [development === true], and the console fallback logger is invoked
    exactly once, with the recipient and the action URL of the call. *)
Theorem console_fallback_without_credentials (c : call) (s : State) :
  transporter s = None ->
  env (worldOf c) !! "EMAIL_USER" = None \/ env (worldOf c) !! "EMAIL_PASS" = None ->
  exists o s' t,
    perform c s = (Normal o, s', t)
    /\ o !! "success" = Some (VBool true)
    /\ o !! "development" = Some (VBool true)
    /\ fallbackCalls t = [(title c, recipient c, actionUrl c)].
Proof.
  intros Hs Hc. apply missing_credentials_not_truthy in Hc.
  destruct (getTransporter_unconfigured (worldOf c) s Hs Hc)
    as (s' & t0 & Hg & _ & Hf & _ & _).
  eexists _, s', _. split; [exact (perform_unavailable c s s' t0 Hg) |].
  split; [destruct c; reflexivity |]. split; [destruct c; reflexivity |].
  rewrite fallbackCalls_cons; cbv beta iota.
  rewrite fallbackCalls_app, Hf, fallbackCalls_banner. reflexivity.
Qed.

(** The amended C2 at a password-reset call in a process with nothing
    configured. *)
Lemma console_fallback_without_credentials_witness :
  transporter init = None
  /\ (env Samples.bare !! "EMAIL_USER" = None \/ env Samples.bare !! "EMAIL_PASS" = None)
  /\ exists o s' t,
       sendPasswordResetEmail Samples.bare "user@example.com" "abc123" init = (Normal o, s', t)
       /\ o !! "success" = Some (VBool true)
       /\ o !! "development" = Some (VBool true)
       /\ fallbackCalls t
          = [("PASSWORD RESET EMAIL", "user@example.com", resetUrl Samples.bare "abc123")].
Proof.
  split; [reflexivity |]. split; [left; reflexivity |].
  apply (console_fallback_without_credentials
           (PasswordReset Samples.bare "user@example.com" "abc123") init).
  - reflexivity.
  - left; reflexivity.
Defined.

(** ** Failures of the send *)

(** C3: when a transport handle is available and the send fails with code
    ESOCKET, ETIMEDOUT or ECONNREFUSED, the call invokes the console fallback
    logger (once, with the recipient and the action URL) and returns
    [success === true], [development === true] and the message that names the
    SMTP connection failure, which is neither the plain fallback message nor
    a failure message. *)
Theorem connection_failure_falls_back
    (c : call) (s s' : State) (t0 : list event) (mailer : Transport) (e : error) :
  getTransporter (worldOf c) s = (Normal (Some mailer), s', t0) ->
  sendMailFails (worldOf c) mailer (mailOf c) = Some e ->
  code e = Some "ESOCKET" \/ code e = Some "ETIMEDOUT" \/ code e = Some "ECONNREFUSED" ->
  exists o t,
    perform c s = (Normal o, s', t)
    /\ o !! "success" = Some (VBool true)
    /\ o !! "development" = Some (VBool true)
    /\ o !! "message"
       = Some (VStr "Email logged to console (SMTP connection failed - check your network/firewall)")
    /\ o !! "message" <> Some (VStr "Email logged to console (check server logs)")
    /\ o !! "message" <> Some (VStr (failureMessage c))
    /\ o !! "error" = None
    /\ fallbackCalls t = [(title c, recipient c, actionUrl c)].
Proof.
  intros Hg Hs Hc. apply connectionError_true in Hc.
  destruct (perform_connection_failed c s s' t0 mailer Hg e Hs Hc) as (t & Hp & Hf & _).
  destruct (getTransporter_total (worldOf c) s) as (r & s1 & t1 & Hg' & _ & Hf0 & _).
  rewrite Hg in Hg'. injection Hg' as _ _ <-. rewrite Hf0 in Hf.
  eexists _, t. split; [exact Hp |].
  destruct c; (repeat split; try exact Hf; intros H; vm_compute in H; discriminate H).
Qed.

(** C3 at a first verification call whose send is refused by the relay. *)
Lemma connection_failure_falls_back_witness :
  let w := Samples.live Samples.credentials (Some Samples.refused) in
  let c := Verification w "user@example.com" "abc123" in
  exists o t,
    perform c init
    = (Normal o, {| transporter := Some {| options := transportConfig w |};
                    nodemailerChecked := true |}, t)
    /\ o !! "success" = Some (VBool true)
    /\ o !! "development" = Some (VBool true)
    /\ o !! "message"
       = Some (VStr "Email logged to console (SMTP connection failed - check your network/firewall)")
    /\ o !! "message" <> Some (VStr "Email logged to console (check server logs)")
    /\ o !! "message" <> Some (VStr (failureMessage c))
    /\ o !! "error" = None
    /\ fallbackCalls t = [(title c, recipient c, actionUrl c)].
Proof.
  cbv zeta.
  eapply (connection_failure_falls_back
            (Verification (Samples.live Samples.credentials (Some Samples.refused))
               "user@example.com" "abc123")
            init _ _ _ Samples.refused).
  - reflexivity.
  - reflexivity.
  - right; right; reflexivity.
Defined.

(** C4: when a transport handle is available and the send fails with a code
    that is none of the three connection codes, the call returns
    [success === false], the failure message of its kind and the text of the
    underlying failure under [error]; the fallback logger is not invoked and
    the send is attempted once. *)
Theorem other_failure_is_reported
    (c : call) (s s' : State) (t0 : list event) (mailer : Transport) (e : error) :
  getTransporter (worldOf c) s = (Normal (Some mailer), s', t0) ->
  sendMailFails (worldOf c) mailer (mailOf c) = Some e ->
  code e <> Some "ESOCKET" /\ code e <> Some "ETIMEDOUT" /\ code e <> Some "ECONNREFUSED" ->
  exists o t,
    perform c s = (Normal o, s', t)
    /\ o !! "success" = Some (VBool false)
    /\ o !! "message"
       = Some (VStr match c with
                    | Verification _ _ _ => "Failed to send verification email"
                    | PasswordReset _ _ _ => "Failed to send password reset email"
                    end)
    /\ o !! "error" = Some (VStr (message e))
    /\ o !! "development" = None
    /\ fallbackCalls t = []
    /\ sends t = [(mailer, mailOf c)].
Proof.
  intros Hg Hs Hc. apply connectionError_false in Hc.
  destruct (perform_failed c s s' t0 mailer Hg e Hs Hc) as (t & Hp & Hf & Hm).
  destruct (getTransporter_total (worldOf c) s) as (r & s1 & t1 & Hg' & _ & Hf0 & Hm0 & _).
  rewrite Hg in Hg'. injection Hg' as _ _ <-. rewrite Hf0 in Hf. rewrite Hm0 in Hm.
  eexists _, t. split; [exact Hp |].
  destruct c; (repeat split; [exact Hf | exact Hm]).
Qed.

(** C4 at a first password-reset call whose recipient is rejected. *)
Lemma other_failure_is_reported_witness :
  let w := Samples.live Samples.credentials (Some Samples.rejected) in
  let c := PasswordReset w "user@example.com" "abc123" in
  let mailer := {| options := transportConfig w |} in
  exists o t,
    perform c init = (Normal o, {| transporter := Some mailer; nodemailerChecked := true |}, t)
    /\ o !! "success" = Some (VBool false)
    /\ o !! "message" = Some (VStr "Failed to send password reset email")
    /\ o !! "error" = Some (VStr (message Samples.rejected))
    /\ o !! "development" = None
    /\ fallbackCalls t = []
    /\ sends t = [(mailer, mailOf c)].
Proof.
  cbv zeta.
  eapply (other_failure_is_reported
            (PasswordReset (Samples.live Samples.credentials (Some Samples.rejected))
               "user@example.com" "abc123")
            init _ _ _ Samples.rejected).
  - reflexivity.
  - reflexivity.
  - repeat split; discriminate.
Defined.

(** ** Nothing is thrown *)

(** C8, as stated, fails on the shape of what is returned: when nodemailer
    cannot be loaded the password-reset call catches the failure and returns
    an outcome whose link is stored under [resetUrl]; the object has no
    [actionUrl] and no [developmentFlag] field, so it is not a
    NotificationOutcome as the specification words it. *)
Lemma load_failure_outcome_is_not_a_NotificationOutcome :
  exists o s' t,
    sendPasswordResetEmail Samples.uninstalled "user@example.com" "abc123" init
    = (Normal o, s', t)
    /\ requireFails Samples.uninstalled "nodemailer" <> None
    /\ o !! "resetUrl" = Some (VStr "http://localhost:5173/reset-password/abc123")
    /\ o !! "actionUrl" = None
    /\ o !! "developmentFlag" = None
    /\ ~ Spec.NotificationOutcome o.
Proof.
  do 3 eexists. split; [reflexivity |].
  split; [discriminate |]. split; [reflexivity |]. split; [reflexivity |].
  split; [reflexivity |].
  intros (_ & _ & [d Hd] & _). vm_compute in Hd. discriminate Hd.
Qed.

(** C8 (amended): whatever the arguments, the module state and the behaviour
    of the collaborators (the module fails to load, the transport cannot be
    built, the send fails with any error), [sendVerificationEmail] and
    [sendPasswordResetEmail] let no exception escape: they complete normally
    and return an outcome object of the shape the code builds, with a boolean
    [success] and a string [message], [development] only as [true], an
    optional string [error], the link as an optional string under
    [verificationUrl] or [resetUrl], and no other field; it is one of the four
    outcome objects of the source. [getTransporter] and [loadNodemailer]
    complete normally too. *)
Theorem no_exception_escapes (c : call) (s : State) :
  (exists o s' t,
     perform c s = (Normal o, s', t)
     /\ outcomeShape (urlField c) o
     /\ (o = fallbackOutcome (urlField c) (actionUrl c)
         \/ o = connectionFallbackOutcome (urlField c) (actionUrl c)
         \/ o = sentOutcome (sentMessage c)
         \/ exists detail, o = failedOutcome (failureMessage c) detail))
  /\ (exists r s' t, getTransporter (worldOf c) s = (Normal r, s', t))
  /\ (exists r s' t, loadNodemailer (worldOf c) s = (Normal r, s', t)).
Proof.
  split; [| split].
  - destruct (perform_total c s) as (o & _ & s' & t & Hp & _ & Ho).
    exists o, s', t. split; [exact Hp |]. split; [| exact Ho].
    destruct c as [w email token | w email token];
      cbn [urlField sentMessage failureMessage] in *;
      destruct Ho as [-> | [-> | [-> | [e ->]]]];
      first [ apply (outcomeShape_verification (actionUrl (Verification w email token)) EmptyString)
            | apply (outcomeShape_verification EmptyString e)
            | apply (outcomeShape_reset (actionUrl (PasswordReset w email token)) EmptyString)
            | apply (outcomeShape_reset EmptyString e) ].
  - destruct (getTransporter_total (worldOf c) s) as (r & s' & t & Hg & _). eauto.
  - unfold loadNodemailer. run_ops.
    destruct (requireFails (worldOf c) "nodemailer"); eauto.
Qed.

(** ** Memoization of the resolver *)

(** In a state that answers by itself, any number of resolutions return
    the same result silently. *)
Lemma resolveAll_settled (r : option Transport) (s : State) (ws : list World) :
  (forall w, getTransporter w s = (Normal r, s, [])) ->
  resolveAll ws s = (List.map (fun _ => (Normal r, [])) ws, s).
Proof.
  intros Hm. induction ws as [| w ws IH]; [reflexivity |].
  cbn [resolveAll List.map]. rewrite Hm, IH. reflexivity.
Qed.

(** One resolution loads the library at most once. *)
Lemma getTransporter_requires_once (w : World) (s : State) :
  length (requires (snd (getTransporter w s))) <= 1.
Proof.
  destruct s as [[t|] [|]]; try (simpl; lia).
  run.
  destruct (requireFails w "nodemailer"); [simpl; lia |].
  destruct (truthy (env w !! "EMAIL_USER")); [| simpl; lia].
  destruct (truthy (env w !! "EMAIL_PASS")); [| simpl; lia].
  match goal with
  | |- context [createTransportFails w ?c] => destruct (createTransportFails w c)
  end; simpl; lia.
Qed.

(** C5: from any module state, once a first call of [getTransporter] has
    completed, every later call, in whatever world, returns the same result
    (the cached handle, or none) with no effect at all: no [require], no read
    of an environment variable, no [createTransport]; the first call itself
    loads the library at most once. In particular a first result of no
    transport is returned again even if the later worlds have EMAIL_USER
    and EMAIL_PASS set. *)
Theorem resolver_is_memoized (s : State) (w1 : World) (ws : list World) :
  exists r t1 s1,
    resolveAll (w1 :: ws) s
    = ((Normal r, t1) :: List.map (fun _ => (Normal r, [])) ws, s1)
    /\ length (requires t1) <= 1.
Proof.
  destruct (getTransporter_total w1 s) as (r & s1 & t1 & Hg & _ & _ & _ & Hm).
  exists r, t1, s1. split.
  - cbn [resolveAll]. rewrite Hg, (resolveAll_settled r s1 ws Hm). reflexivity.
  - pose proof (getTransporter_requires_once w1 s) as H. rewrite Hg in H. exact H.
Qed.

(** ** The action link *)

(** C6, as stated, fails when CLIENT_URL is set to the empty string: the
    link is then built on the default base, not on the empty value. *)
Lemma empty_client_url_uses_default :
  let w := Samples.live {[ "CLIENT_URL" := EmptyString ]} None in
  exists o s' t,
    sendVerificationEmail w "user@example.com" "abc123" init = (Normal o, s', t)
    /\ Spec.configuredClientUrl w = EmptyString
    /\ o !! "verificationUrl" = Some (VStr "http://localhost:5173/verify-email/abc123")
    /\ o !! "verificationUrl"
       <> Some (VStr (Spec.configuredClientUrl w +:+ "/verify-email/" +:+ "abc123")).
Proof.
  cbv zeta. do 3 eexists. split; [reflexivity |].
  repeat split. intros H. vm_compute in H. discriminate H.
Qed.

(** On every path of either operation the only link shown is the action
    URL of the call. *)
Lemma linksAre_run (c : call) (s : State) (body : string -> string) :
  html (mailOf c) = body (actionUrl c) ->
  linksAre (actionUrl c) (urlField c) body (perform c s).
Proof.
  intros Hb.
  destruct (getTransporter_total (worldOf c) s) as (r & s' & t0 & Hg & _ & Hf0 & Hm0 & _).
  unfold linksAre. destruct r as [mailer|].
  - destruct (sendMailFails (worldOf c) mailer (mailOf c)) as [e|] eqn:Hs.
    + destruct (connectionError e) eqn:Hc.
      * destruct (perform_connection_failed c s s' t0 mailer Hg e Hs Hc) as (t & -> & Hf & Hm).
        cbn [fst snd]. rewrite Hf, Hm, Hf0, Hm0. cbn [app].
        split; [repeat constructor |]. split; [repeat constructor; exact Hb |].
        eexists. split; [reflexivity |]. right. destruct c; reflexivity.
      * destruct (perform_failed c s s' t0 mailer Hg e Hs Hc) as (t & -> & Hf & Hm).
        cbn [fst snd]. rewrite Hf, Hm, Hf0, Hm0. cbn [app].
        split; [constructor |]. split; [repeat constructor; exact Hb |].
        eexists. split; [reflexivity |]. left. destruct c; reflexivity.
    + rewrite (perform_sent c s s' t0 mailer Hg Hs). cbn [fst snd].
      rewrite fallbackCalls_cons, sends_cons, fallbackCalls_app, sends_app, Hf0, Hm0.
      cbv beta iota. cbn [app].
      split; [constructor |]. split; [repeat constructor; exact Hb |].
      eexists. split; [reflexivity |]. left. destruct c; reflexivity.
  - rewrite (perform_unavailable c s s' t0 Hg). cbn [fst snd].
    rewrite fallbackCalls_cons, sends_cons, fallbackCalls_app, sends_app, Hf0, Hm0,
      fallbackCalls_banner, sends_banner.
    cbv beta iota. cbn [app].
    split; [repeat constructor |]. split; [constructor |].
    eexists. split; [reflexivity |]. right. destruct c; reflexivity.
Qed.

(** C6 (amended): for every token, the action URL is the value of
    CLIENT_URL, or [http://localhost:5173] when CLIENT_URL is unset or empty,
    followed by [/verify-email/] (verification) or [/reset-password/] (reset)
    and by the token as it is, with no encoding: that string is the link in
    the console banner, in the body of the message sent and in the outcome
    object. With CLIENT_URL unset and token [abc123] the two links are
    [http://localhost:5173/verify-email/abc123] and
    [http://localhost:5173/reset-password/abc123]. *)
Theorem action_url_construction (w : World) (s : State) (email token : string) :
  let base := match env w !! "CLIENT_URL" with
              | Some (String a r) => String a r
              | _ => "http://localhost:5173"
              end in
  linksAre (base +:+ "/verify-email/" +:+ token) "verificationUrl" verificationHtml
    (sendVerificationEmail w email token s)
  /\ linksAre (base +:+ "/reset-password/" +:+ token) "resetUrl" resetHtml
       (sendPasswordResetEmail w email token s)
  /\ verificationUrl Samples.bare "abc123" = "http://localhost:5173/verify-email/abc123"
  /\ resetUrl Samples.bare "abc123" = "http://localhost:5173/reset-password/abc123"
  /\ fst (fst (sendVerificationEmail Samples.bare email "abc123" init))
     = Normal (fallbackOutcome "verificationUrl" "http://localhost:5173/verify-email/abc123")
  /\ fst (fst (sendPasswordResetEmail Samples.bare email "abc123" init))
     = Normal (fallbackOutcome "resetUrl" "http://localhost:5173/reset-password/abc123").
Proof.
  cbv zeta. split; [| split].
  - exact (linksAre_run (Verification w email token) s verificationHtml eq_refl).
  - exact (linksAre_run (PasswordReset w email token) s resetHtml eq_refl).
  - repeat split.
Qed.

(** ** The secure flag *)

(** [v === x] holds exactly when [v] is the string [x]. *)
Lemma strict_eq_true (v : option string) (x : string) :
  strict_eq v x = true <-> v = Some x.
Proof.
  destruct v as [y|]; simpl.
  - rewrite String.eqb_eq. split; [intros -> | intros [=]]; congruence.
  - split; discriminate.
Qed.

(** [parseInt] on port strings: digits after white space, a sign or a
    leading zero, a [0x] prefix, a trailing remainder that is ignored, no digit
    at all, a negative zero, and integers beyond 2^53, which are rounded to
    the nearest double. *)
Lemma parseInt_samples :
  parseInt "465" = Int 465
  /\ parseInt "0465" = Int 465
  /\ parseInt " +465" = Int 465
  /\ parseInt "465.5" = Int 465
  /\ parseInt "0x1D1" = Int 465
  /\ parseInt "587" = Int 587
  /\ parseInt "smtp" = NaN
  /\ parseInt "-0" = NegZero
  /\ parseInt "9007199254740993" = Int 9007199254740992
  /\ parseInt "99999999999999999999999" = Int 99999999999999991611392.
Proof. repeat split; vm_compute; reflexivity. Qed.

(** What line 32 and line 36 compute: the flag is the comparison of the
    EMAIL_PORT string with [465], the port is the number [parseInt] reads in
    EMAIL_PORT, or in [587] when it is unset or empty. *)
Lemma secure_follows_port_string (w : World) (s : State) (cfg : TransportConfig) :
  cfg ∈ creations (snd (getTransporter w s)) ->
  (secure cfg = true <-> env w !! "EMAIL_PORT" = Some "465")
  /\ port cfg = parseInt (or_else (env w !! "EMAIL_PORT") "587")
  /\ (secure cfg = false \/ port cfg = Int 465).
Proof.
  intros Hin. apply getTransporter_creations in Hin. subst cfg.
  cbn [secure port transportConfig]. split; [apply strict_eq_true |].
  split; [reflexivity |].
  destruct (strict_eq (env w !! "EMAIL_PORT") "465") eqn:He; [right | left; reflexivity].
  apply strict_eq_true in He. rewrite He. reflexivity.
Qed.

(** C7 fails on the code at EMAIL_PORT set to [0465]: the configuration
    handed to [createTransport] has port 465, the parsed integer of the
    variable, and [secure] false, where the claim and the comment of line 37
    (true for 465) want [secure] true; with the variable set to [465] the same
    port comes with [secure] true. *)
Theorem port_0465_is_not_secure :
  let w := Samples.live (<[ "EMAIL_PORT" := "0465" ]> Samples.credentials) None in
  let w' := Samples.live (<[ "EMAIL_PORT" := "465" ]> Samples.credentials) None in
  (exists cfg,
     creations (snd (getTransporter w init)) = [cfg]
     /\ port cfg = Int 465
     /\ Spec.configuredPort w = Int 465
     /\ secure cfg = false)
  /\ (exists cfg,
        creations (snd (getTransporter w' init)) = [cfg]
        /\ port cfg = Int 465
        /\ secure cfg = true).
Proof.
  cbv zeta. split; eexists; (split; [reflexivity |]); repeat split.
Qed.

(** ** A transport that cannot be built *)

(** Once no transport has been found, every call is a console run. *)
Lemma performAll_unavailable (cs : list call) :
  performAll cs unavailable = (List.map consoleRun cs, unavailable).
Proof.
  induction cs as [| c cs IH]; [reflexivity |].
  cbn [performAll List.map].
  rewrite (perform_unavailable c unavailable unavailable [] (getTransporter_checked (worldOf c))).
  rewrite IH. reflexivity.
Qed.

(** Removing the credentials leaves the base of the links as it is. *)
Lemma clientUrl_withoutCredentials (w : World) : clientUrl (withoutCredentials w) = clientUrl w.
Proof.
  unfold clientUrl, withoutCredentials. cbn [env].
  rewrite !lookup_delete_ne by discriminate. reflexivity.
Qed.

(** A first call without credentials returns the fallback outcome. *)
Lemma uncredentialed_fresh (c : call) :
  fst (fst (perform (uncredentialed c) init)) = fst (consoleRun c).
Proof.
  assert (Hc : forall w, truthy (env (withoutCredentials w) !! "EMAIL_USER")
                         && truthy (env (withoutCredentials w) !! "EMAIL_PASS") = false).
  { intros w. unfold withoutCredentials. cbn [env].
    rewrite lookup_delete_ne by discriminate. rewrite lookup_delete_eq. reflexivity. }
  destruct (getTransporter_unconfigured (worldOf (uncredentialed c)) init eq_refl)
    as (s' & t0 & Hg & _); [destruct c; apply Hc |].
  rewrite (perform_unavailable _ _ _ _ Hg). cbn [fst consoleRun].
  destruct c as [w email token | w email token];
    cbn [uncredentialed urlField actionUrl]; unfold verificationUrl, resetUrl;
    rewrite clientUrl_withoutCredentials; reflexivity.
Qed.

(** C10: when nodemailer loads and both credentials are set but
    [createTransport] throws, [getTransporter] catches the error, attempts the
    construction once, records that the check is done and returns no
    transport; every later call of either operation then only reads CLIENT_URL
    and prints the banner (so the construction is never attempted again) and
    returns the fallback outcome with [success: true], [development: true]
    and the message [Email logged to console (check server logs)], the same
    outcome as a first call made with the credentials removed. *)
Theorem failed_construction_is_final (w : World) (e : error) (cs : list call) :
  requireFails w "nodemailer" = None ->
  truthy (env w !! "EMAIL_USER") = true ->
  truthy (env w !! "EMAIL_PASS") = true ->
  createTransportFails w (transportConfig w) = Some e ->
  (exists t1,
     getTransporter w init = (Normal None, unavailable, t1)
     /\ creations t1 = [transportConfig w])
  /\ performAll cs unavailable = (List.map consoleRun cs, unavailable)
  /\ Forall (fun c =>
       exists o,
         consoleRun c = (Normal o, EvEnv "CLIENT_URL" :: banner (title c) (recipient c) (actionUrl c))
         /\ o !! "success" = Some (VBool true)
         /\ o !! "development" = Some (VBool true)
         /\ o !! "message" = Some (VStr "Email logged to console (check server logs)")
         /\ creations (snd (consoleRun c)) = []
         /\ requires (snd (consoleRun c)) = []
         /\ fallbackCalls (snd (consoleRun c)) = [(title c, recipient c, actionUrl c)]
         /\ fst (fst (perform (uncredentialed c) init)) = Normal o) cs.
Proof.
  intros Hr Hu Hp Hf. split; [| split].
  - destruct (getTransporter_configured w Hr Hu Hp) as (r & t1 & Hg & Hc & Hres).
    rewrite Hf in Hres. subst r. exists t1. split; [exact Hg | exact Hc].
  - apply performAll_unavailable.
  - apply Forall_forall. intros c _. eexists. split; [reflexivity |].
    split; [destruct c; reflexivity |]. split; [destruct c; reflexivity |].
    split; [destruct c; reflexivity |]. split; [reflexivity |]. split; [reflexivity |].
    split; [reflexivity |]. apply uncredentialed_fresh.
Qed.

(** C10 at a process whose [createTransport] throws, followed by a
    verification call and a password-reset call. *)
Lemma failed_construction_is_final_witness :
  let cs := [Verification Samples.bare "user@example.com" "abc123";
             PasswordReset (Samples.live Samples.credentials None) "user@example.com" "xyz"] in
  (exists t1,
     getTransporter Samples.broken init = (Normal None, unavailable, t1)
     /\ creations t1 = [transportConfig Samples.broken])
  /\ performAll cs unavailable = (List.map consoleRun cs, unavailable)
  /\ Forall (fun c =>
       exists o,
         consoleRun c = (Normal o, EvEnv "CLIENT_URL" :: banner (title c) (recipient c) (actionUrl c))
         /\ o !! "success" = Some (VBool true)
         /\ o !! "development" = Some (VBool true)
         /\ o !! "message" = Some (VStr "Email logged to console (check server logs)")
         /\ creations (snd (consoleRun c)) = []
         /\ requires (snd (consoleRun c)) = []
         /\ fallbackCalls (snd (consoleRun c)) = [(title c, recipient c, actionUrl c)]
         /\ fst (fst (perform (uncredentialed c) init)) = Normal o) cs.
Proof.
  cbv zeta.
  apply (failed_construction_is_final Samples.broken
           (Error None "Invalid transport options")); reflexivity.
Defined.

(** ** Cleanup of the temporary file in [uploadFile] *)

Ltac run_upload :=
  cbv beta iota zeta delta
    [Upload.uploadFile Upload.uploadToCloudinary Upload.unlinkSync Upload.consoleError
     Upload.respond Upload.processEnv Upload.file Upload.path Upload.unlinks Upload.files
     mbind mret exec_bind exec_ret bind ret throw tryCatch gets modify emit app].

(** X12, the failure path: when the upload itself fails with [e], the
    removal of the temporary file is attempted once, its own failure is only
    logged, and the response is the 500 shape with the message of [e], or
    with [Upload failed] when that message is empty. *)
Lemma uploadFile_upload_failed (w : Upload.World) (s : Upload.State) (f : Upload.File) (e : error) :
  Upload.cloudinary w (Upload.path f) = inl e ->
  Upload.path f <> EmptyString ->
  exists s' t,
    Upload.uploadFile w {| Upload.file := Some f |} s = (Normal tt, s', t)
    /\ Upload.responses t
       = [(500%Z, VObj {[ "success" := VBool false;
                          "message" := VStr (or_else (Some (message e)) "Upload failed") ]})]
    /\ Upload.unlinkAttempts t = [Upload.path f].
Proof.
  intros Hc Hp. destruct f as [p]. destruct s as [fs n]. cbn [Upload.path] in *.
  run_upload. rewrite Hc.
  assert (Ht : truthy (Some p) = true) by (destruct p; [congruence | reflexivity]).
  rewrite Ht.
  destruct (Upload.unlinkFails w n p);
    [| destruct (bool_decide (p ∈ fs))];
    (do 2 eexists; split; [reflexivity |]; split; reflexivity).
Qed.

(** X13, the success path when the removal works: the file is gone and the
    response is the 200 shape, with the [url] and the [public_id] of the
    upload result under [data.url] and [data.publicId]. *)
Lemma uploadFile_uploaded (w : Upload.World) (s : Upload.State) (f : Upload.File)
    (r : Upload.UploadResult) :
  Upload.cloudinary w (Upload.path f) = inr r ->
  Upload.unlinkFails w (Upload.unlinks s) (Upload.path f) = None ->
  Upload.path f ∈ Upload.files s ->
  exists s' t,
    Upload.uploadFile w {| Upload.file := Some f |} s = (Normal tt, s', t)
    /\ (Upload.path f ∉ Upload.files s')
    /\ Upload.responses t
       = [(200%Z, VObj {[ "success" := VBool true;
                          "message" := VStr "File uploaded successfully";
                          "data" := VObj {[ "url" := VStr (Upload.url r);
                                            "publicId" := VStr (Upload.public_id r) ]} ]})].
Proof.
  intros Hc Hu Hin. destruct f as [p]. destruct s as [fs n].
  cbn [Upload.path Upload.files Upload.unlinks] in *.
  run_upload. rewrite Hc, Hu, (bool_decide_eq_true_2 _ Hin).
  do 2 eexists. split; [reflexivity |]. split; [| reflexivity].
  cbn [Upload.files]. set_solver.
Qed.

(** C9 fails on the success path: the upload succeeds, the removal of the
    temporary file is refused, and the request is answered with the 500 shape
    carrying the text of the removal failure instead of the 200 shape; the
    removal is attempted a second time in the handler, where its failure is
    only logged, and the file stays on disk. *)
Theorem cleanup_failure_after_upload_answers_500 :
  exists s' t,
    Upload.uploadFile Samples.stuck Samples.request Samples.disk = (Normal tt, s', t)
    /\ Upload.uploads t = ["uploads/tmp-1.png"]
    /\ Upload.unlinkAttempts t = ["uploads/tmp-1.png"; "uploads/tmp-1.png"]
    /\ Upload.responses t
       = [(500%Z, VObj {[ "success" := VBool false;
                          "message" := VStr (message Samples.denied) ]})]
    /\ Upload.EvConsoleError [Upload.AStr "Error deleting temporary file:";
                              Upload.AErr Samples.denied] ∈ t
    /\ "uploads/tmp-1.png" ∈ Upload.files s'.
Proof.
  do 2 eexists. split; [reflexivity |].
  split; [reflexivity |]. split; [reflexivity |]. split; [reflexivity |].
  split; [do 3 apply list_elem_of_further; apply list_elem_of_here |].
  cbn. set_solver.
Qed.

(** * Further properties of the e-mail helper *)

(** The effects of a call: the read of CLIENT_URL, the effects of the
    resolver, then a tail that neither loads the library nor builds a
    transport, reads EMAIL_USER only when a handle is used, and sends only
    through the handle the resolver returned. *)
Lemma perform_effects (c : call) (s : State) :
  exists r s' t0 o tail,
    getTransporter (worldOf c) s = (Normal r, s', t0)
    /\ perform c s = (Normal o, s', EvEnv "CLIENT_URL" :: t0 ++ tail)
    /\ creations tail = []
    /\ requires tail = []
    /\ envReads tail = match r with Some _ => ["EMAIL_USER"] | None => [] end
    /\ Forall (fun x => Some (fst x) = r) (sends tail).
Proof.
  destruct (getTransporter_total (worldOf c) s) as (r & s' & t0 & Hg & _).
  exists r, s', t0. destruct r as [mailer|].
  - destruct (sendMailFails (worldOf c) mailer (mailOf c)) as [e|] eqn:Hs.
    + destruct (connectionError e) eqn:Hc.
      * destruct c as [w email token | w email token]; cbn [worldOf mailOf perform] in *;
          do 2 eexists; (split; [exact Hg |]);
          (split;
           [ first [ exact (sendVerificationEmail_connection_failed _ _ _ _ _ _ _ Hg e Hs Hc)
                   | exact (sendPasswordResetEmail_connection_failed _ _ _ _ _ _ _ Hg e Hs Hc) ]
           | repeat split; repeat constructor ]).
      * destruct c as [w email token | w email token]; cbn [worldOf mailOf perform] in *;
          do 2 eexists; (split; [exact Hg |]);
          (split;
           [ first [ exact (sendVerificationEmail_failed _ _ _ _ _ _ _ Hg e Hs Hc)
                   | exact (sendPasswordResetEmail_failed _ _ _ _ _ _ _ Hg e Hs Hc) ]
           | repeat split; repeat constructor ]).
    + destruct c as [w email token | w email token]; cbn [worldOf mailOf perform] in *;
        do 2 eexists; (split; [exact Hg |]);
        (split;
         [ first [ exact (sendVerificationEmail_sent _ _ _ _ _ _ _ Hg Hs)
                 | exact (sendPasswordResetEmail_sent _ _ _ _ _ _ _ Hg Hs) ]
         | repeat split; repeat constructor ]).
  - destruct c as [w email token | w email token]; cbn [worldOf mailOf perform] in *;
      do 2 eexists; (split; [exact Hg |]);
      (split;
       [ first [ exact (sendVerificationEmail_unavailable _ _ _ _ _ _ Hg)
               | exact (sendPasswordResetEmail_unavailable _ _ _ _ _ _ Hg) ]
       | repeat split; repeat constructor ]).
Qed.

(** X1: when a transport handle is available and the relay accepts the
    message, the call returns exactly [{success: true, message: '<kind> email
    sent successfully'}], with no [development], no link and no [error]
    field; the console fallback logger is not invoked and the message is sent
    once, through the handle the resolver returned. *)
Theorem delivery_is_reported
    (c : call) (s s' : State) (t0 : list event) (mailer : Transport) :
  getTransporter (worldOf c) s = (Normal (Some mailer), s', t0) ->
  sendMailFails (worldOf c) mailer (mailOf c) = None ->
  exists o t,
    perform c s = (Normal o, s', t)
    /\ o !! "success" = Some (VBool true)
    /\ o !! "message"
       = Some (VStr match c with
                    | Verification _ _ _ => "Verification email sent successfully"
                    | PasswordReset _ _ _ => "Password reset email sent successfully"
                    end)
    /\ o !! "development" = None
    /\ o !! urlField c = None
    /\ o !! "error" = None
    /\ fallbackCalls t = []
    /\ sends t = [(mailer, mailOf c)].
Proof.
  intros Hg Hs.
  destruct (getTransporter_total (worldOf c) s) as (r & s1 & t1 & Hg' & _ & Hf0 & Hm0 & _).
  rewrite Hg in Hg'. injection Hg' as _ _ <-.
  eexists _, _. split; [exact (perform_sent c s s' t0 mailer Hg Hs) |].
  rewrite fallbackCalls_cons, sends_cons, fallbackCalls_app, sends_app, Hf0, Hm0.
  destruct c; repeat split.
Qed.

(** X1 at a first verification call with credentials and a relay that
    accepts the message. *)
Lemma delivery_is_reported_witness :
  let w := Samples.live Samples.credentials None in
  let c := Verification w "user@example.com" "abc123" in
  let mailer := {| options := transportConfig w |} in
  exists o t,
    perform c init = (Normal o, cached mailer, t)
    /\ o !! "success" = Some (VBool true)
    /\ o !! "message" = Some (VStr "Verification email sent successfully")
    /\ o !! "development" = None
    /\ o !! urlField c = None
    /\ o !! "error" = None
    /\ fallbackCalls t = []
    /\ sends t = [(mailer, mailOf c)].
Proof.
  cbv zeta.
  eapply (delivery_is_reported
            (Verification (Samples.live Samples.credentials None) "user@example.com" "abc123")
            init _ _ _).
  - reflexivity.
  - reflexivity.
Defined.

(** X2: when nodemailer cannot be loaded, a first call of either operation
    never looks at the credentials and never builds a transport, even when
    EMAIL_USER and EMAIL_PASS are set: after reading CLIENT_URL and trying the
    library once it prints the banner, returns the fallback outcome and leaves
    the module in the state where no transport is available. *)
Theorem missing_library_falls_back (c : call) (e : error) :
  requireFails (worldOf c) "nodemailer" = Some e ->
  perform c init
  = (Normal (fallbackOutcome (urlField c) (actionUrl c)), unavailable,
     EvEnv "CLIENT_URL" :: EvRequire "nodemailer"
       :: banner (title c) (recipient c) (actionUrl c)).
Proof.
  intros Hr.
  assert (Hg : getTransporter (worldOf c) init
               = (Normal None, unavailable, [EvRequire "nodemailer"])).
  { run. rewrite Hr. reflexivity. }
  rewrite (perform_unavailable c init unavailable _ Hg). reflexivity.
Qed.

(** X2 at a password-reset call in a process with credentials but without
    the library. *)
Lemma missing_library_falls_back_witness :
  let c := PasswordReset Samples.uninstalled "user@example.com" "abc123" in
  truthy (env Samples.uninstalled !! "EMAIL_USER") = true
  /\ perform c init
     = (Normal (fallbackOutcome (urlField c) (actionUrl c)), unavailable,
        EvEnv "CLIENT_URL" :: EvRequire "nodemailer"
          :: banner (title c) (recipient c) (actionUrl c)).
Proof.
  cbv zeta. split; [reflexivity |].
  apply (missing_library_falls_back
           (PasswordReset Samples.uninstalled "user@example.com" "abc123")
           (Error (Some "MODULE_NOT_FOUND") "Cannot find module 'nodemailer'")).
  reflexivity.
Defined.

(** A transport is only ever built in the initial state, with the library
    loaded and both credentials truthy. *)
Lemma getTransporter_creation_guard (w : World) (s : State) (cfg : TransportConfig) :
  cfg ∈ creations (snd (getTransporter w s)) ->
  s = init
  /\ requireFails w "nodemailer" = None
  /\ truthy (env w !! "EMAIL_USER") = true
  /\ truthy (env w !! "EMAIL_PASS") = true.
Proof.
  assert (Hnil : cfg ∈ @nil TransportConfig ->
                 s = init /\ requireFails w "nodemailer" = None
                 /\ truthy (env w !! "EMAIL_USER") = true
                 /\ truthy (env w !! "EMAIL_PASS") = true)
    by (intros H; inversion H).
  destruct s as [[t|] [|]]; [exact Hnil | exact Hnil | exact Hnil |].
  clear Hnil. run.
  destruct (requireFails w "nodemailer"); [intros H; inversion H |].
  destruct (truthy (env w !! "EMAIL_USER")); [| intros H; inversion H].
  destruct (truthy (env w !! "EMAIL_PASS")); [| intros H; inversion H].
  intros _. repeat split.
Qed.

(** X3: every configuration [getTransporter] hands to [createTransport] has
    non-empty credentials, taken from EMAIL_USER and EMAIL_PASS, a non-empty
    host that is EMAIL_HOST or [smtp.gmail.com] when EMAIL_HOST is unset or
    empty, certificate validation switched off and the three timeouts at
    10000 ms. *)
Theorem transport_configuration_invariants (w : World) (s : State) (cfg : TransportConfig) :
  cfg ∈ creations (snd (getTransporter w s)) ->
  (exists u p, auth_user cfg = Some u /\ auth_pass cfg = Some p
               /\ env w !! "EMAIL_USER" = Some u /\ env w !! "EMAIL_PASS" = Some p
               /\ u <> EmptyString /\ p <> EmptyString)
  /\ host cfg = match env w !! "EMAIL_HOST" with
                | Some (String a r) => String a r
                | _ => "smtp.gmail.com"
                end
  /\ host cfg <> EmptyString
  /\ tls_rejectUnauthorized cfg = false
  /\ connectionTimeout cfg = 10000%Z
  /\ greetingTimeout cfg = 10000%Z
  /\ socketTimeout cfg = 10000%Z.
Proof.
  intros Hin.
  destruct (getTransporter_creation_guard w s cfg Hin) as (_ & _ & Hu & Hp).
  apply getTransporter_creations in Hin. subst cfg.
  cbn [auth_user auth_pass host tls_rejectUnauthorized connectionTimeout
       greetingTimeout socketTimeout transportConfig].
  split; [| split; [reflexivity | split; [| repeat split]]].
  - destruct (env w !! "EMAIL_USER") as [[|a u]|]; try discriminate Hu.
    destruct (env w !! "EMAIL_PASS") as [[|b p]|]; try discriminate Hp.
    eexists _, _. repeat split; discriminate.
  - unfold or_else. destruct (env w !! "EMAIL_HOST") as [[|a r]|]; discriminate.
Qed.

(** X3 at a first resolution with credentials and EMAIL_HOST unset. *)
Lemma transport_configuration_invariants_witness :
  let w := Samples.live Samples.credentials None in
  let cfg := transportConfig w in
  cfg ∈ creations (snd (getTransporter w init))
  /\ host cfg = "smtp.gmail.com"
  /\ (exists u p, auth_user cfg = Some u /\ auth_pass cfg = Some p
                  /\ env w !! "EMAIL_USER" = Some u /\ env w !! "EMAIL_PASS" = Some p
                  /\ u <> EmptyString /\ p <> EmptyString).
Proof.
  cbv zeta.
  assert (Hin : transportConfig (Samples.live Samples.credentials None)
                ∈ creations (snd (getTransporter (Samples.live Samples.credentials None) init)))
    by (apply list_elem_of_singleton; reflexivity).
  split; [exact Hin |]. split; [reflexivity |].
  exact (proj1 (transport_configuration_invariants _ init _ Hin)).
Defined.

(** ** Sequences of calls *)

Lemma effects_cons {A : Type} (x : A * list event) (runs : list (A * list event)) :
  effects (x :: runs) = snd x ++ effects runs.
Proof. reflexivity. Qed.

(** In a state that answers every resolution by itself, a sequence of calls
    leaves the state as it is, loads nothing, builds nothing and sends only
    through the handle of the state, if any. *)
Lemma performAll_settled (r : option Transport) (s : State) (cs : list call) :
  (forall w, getTransporter w s = (Normal r, s, [])) ->
  snd (performAll cs s) = s
  /\ creations (effects (fst (performAll cs s))) = []
  /\ requires (effects (fst (performAll cs s))) = []
  /\ Forall (fun x => Some (fst x) = r) (sends (effects (fst (performAll cs s)))).
Proof.
  intros Hm. induction cs as [| c cs IH]; [repeat split; constructor |].
  destruct (perform_effects c s) as (r' & s' & t0 & o & tail & Hg & Hp & Hc & Hr & _ & Hs).
  rewrite Hm in Hg. injection Hg as <- <- <-.
  cbn [performAll]. rewrite Hp.
  destruct (performAll cs s) as [rs s2] eqn:Hall. cbn [fst snd] in *.
  destruct IH as (-> & IHc & IHr & IHs).
  rewrite effects_cons. cbn [snd app].
  unfold creations, requires, sends in *. cbn [omap list_omap].
  rewrite !omap_app, Hc, Hr, IHc, IHr.
  repeat split. apply Forall_app. split; assumption.
Qed.

(** X4: once a transport handle is cached, no later call of either
    operation, whatever the environment and however the sends fail, replaces
    or drops it: the module state stays as it is, nodemailer is not loaded
    again, no transport is built, and every message is sent through that
    handle. *)
Theorem cached_handle_is_permanent (h : Transport) (checked : bool) (cs : list call) :
  let s := {| transporter := Some h; nodemailerChecked := checked |} in
  snd (performAll cs s) = s
  /\ creations (effects (fst (performAll cs s))) = []
  /\ requires (effects (fst (performAll cs s))) = []
  /\ Forall (fun x => fst x = h) (sends (effects (fst (performAll cs s)))).
Proof.
  cbv zeta.
  destruct (performAll_settled (Some h) _ cs (fun w => getTransporter_cached w h checked))
    as (Hs & Hc & Hr & Hm).
  repeat split; try assumption.
  eapply Forall_impl; [exact Hm |]. intros x Hx. congruence.
Qed.

(** X5: over any sequence of calls of the two operations, from any module
    state and in whatever worlds, nodemailer is loaded at most once and a
    transport is built at most once. *)
Theorem one_construction_per_process (s : State) (cs : list call) :
  length (creations (effects (fst (performAll cs s)))) <= 1
  /\ length (requires (effects (fst (performAll cs s)))) <= 1.
Proof.
  destruct cs as [| c cs]; [split; simpl; lia |].
  destruct (perform_effects c s) as (r & s' & t0 & o & tail & Hg & Hp & Hc & Hr & _).
  destruct (getTransporter_total (worldOf c) s) as (r1 & s1 & t1 & Hg1 & _ & _ & _ & Hm).
  rewrite Hg in Hg1. injection Hg1 as <- <- <-.
  destruct (performAll_settled r s' cs Hm) as (_ & Hcs & Hrs & _).
  cbn [performAll]. rewrite Hp.
  destruct (performAll cs s') as [rs s2]. cbn [fst snd] in *.
  rewrite effects_cons. cbn [snd app].
  unfold creations, requires in *. cbn [omap list_omap].
  rewrite !omap_app, Hc, Hr, Hcs, Hrs, !app_nil_r.
  split.
  - destruct (decide (omap (fun e => match e with EvCreateTransport c0 => Some c0 | _ => None end) t0 = []))
      as [-> | Hne]; [simpl; lia |].
    destruct (omap _ t0) as [| cfg l] eqn:Hl; [congruence |].
    assert (Hin : cfg ∈ creations (snd (getTransporter (worldOf c) s)))
      by (rewrite Hg; cbn [snd]; unfold creations; rewrite Hl; left).
    apply getTransporter_creation_guard in Hin. destruct Hin as (-> & Hq & Hu & Hpw).
    destruct (getTransporter_configured (worldOf c) Hq Hu Hpw) as (r2 & t2 & Hg2 & Hc2 & _).
    rewrite Hg in Hg2. injection Hg2 as _ _ <-.
    unfold creations in Hc2. rewrite Hl in Hc2. rewrite Hc2. simpl; lia.
  - pose proof (getTransporter_requires_once (worldOf c) s) as H.
    rewrite Hg in H. exact H.
Qed.

(** ** What a call shows for itself *)

(** X6: every call of either operation either prints the console banner
    exactly once (with the recipient and the action URL) and returns
    [development: true] without [success: false], or prints no banner,
    attempts exactly one send of the message of the call and returns an
    outcome without [development]; no call is silent and none sends twice. *)
Theorem banner_iff_development (c : call) (s : State) :
  exists o s' t,
    perform c s = (Normal o, s', t)
    /\ length (sends t) <= 1
    /\ ((o !! "development" = Some (VBool true)
         /\ o !! "success" = Some (VBool true)
         /\ fallbackCalls t = [(title c, recipient c, actionUrl c)])
        \/ (o !! "development" = None
            /\ fallbackCalls t = []
            /\ exists mailer, sends t = [(mailer, mailOf c)])).
Proof.
  destruct (getTransporter_total (worldOf c) s) as (r & s' & t0 & Hg & _ & Hf0 & Hm0 & _).
  destruct r as [mailer|].
  - destruct (sendMailFails (worldOf c) mailer (mailOf c)) as [e|] eqn:Hs.
    + destruct (connectionError e) eqn:Hc.
      * destruct (perform_connection_failed c s s' t0 mailer Hg e Hs Hc) as (t & Hp & Hf & Hm).
        eexists _, s', t. split; [exact Hp |]. rewrite Hf, Hm, Hf0, Hm0.
        split; [simpl; lia |]. left. destruct c; repeat split.
      * destruct (perform_failed c s s' t0 mailer Hg e Hs Hc) as (t & Hp & Hf & Hm).
        eexists _, s', t. split; [exact Hp |]. rewrite Hf, Hm, Hf0, Hm0.
        split; [simpl; lia |]. right. destruct c; (repeat split; eexists; reflexivity).
    + eexists _, s', _. split; [exact (perform_sent c s s' t0 mailer Hg Hs) |].
      rewrite fallbackCalls_cons, sends_cons, fallbackCalls_app, sends_app, Hf0, Hm0.
      split; [simpl; lia |]. right. destruct c; (repeat split; eexists; reflexivity).
  - eexists _, s', _. split; [exact (perform_unavailable c s s' t0 Hg) |].
    rewrite fallbackCalls_cons, sends_cons, fallbackCalls_app, sends_app, Hf0, Hm0,
      fallbackCalls_banner, sends_banner.
    split; [simpl; lia |]. left. destruct c; repeat split.
Qed.

(** X7: the sender of a message is built from EMAIL_USER as it is when the
    message is sent, not from the credentials the cached transport was built
    with: once a handle is cached, a call made while EMAIL_USER is unset sends
    a message whose [from] is the text ["Seekon" <undefined>]. *)
Theorem sender_follows_environment (c : call) (h : Transport) (checked : bool) :
  env (worldOf c) !! "EMAIL_USER" = None ->
  exists mail,
    sends (snd (perform c {| transporter := Some h; nodemailerChecked := checked |}))
    = [(h, mail)]
    /\ from mail = dq +:+ "Seekon" +:+ dq +:+ " <undefined>"
    /\ to mail = recipient c.
Proof.
  intros Hu.
  pose proof (getTransporter_cached (worldOf c) h checked) as Hg.
  assert (Hfrom : from (mailOf c) = dq +:+ "Seekon" +:+ dq +:+ " <undefined>")
    by (destruct c; cbn [mailOf verificationMail resetMail from worldOf] in *;
        rewrite Hu; reflexivity).
  exists (mailOf c). split; [| split; [exact Hfrom | destruct c; reflexivity]].
  destruct (sendMailFails (worldOf c) h (mailOf c)) as [e|] eqn:Hs.
  - destruct (connectionError e) eqn:Hc.
    + destruct (perform_connection_failed c _ _ _ h Hg e Hs Hc) as (t & Hp & _ & Hm).
      rewrite Hp. cbn [snd]. rewrite Hm. reflexivity.
    + destruct (perform_failed c _ _ _ h Hg e Hs Hc) as (t & Hp & _ & Hm).
      rewrite Hp. cbn [snd]. rewrite Hm. reflexivity.
  - rewrite (perform_sent c _ _ _ h Hg Hs). reflexivity.
Qed.

(** X7 at a verification call made through a cached handle after the
    credentials have been removed. *)
Lemma sender_follows_environment_witness :
  let h := {| options := transportConfig (Samples.live Samples.credentials None) |} in
  let c := Verification Samples.bare "user@example.com" "abc123" in
  env Samples.bare !! "EMAIL_USER" = None
  /\ exists mail,
       sends (snd (perform c (cached h))) = [(h, mail)]
       /\ from mail = dq +:+ "Seekon" +:+ dq +:+ " <undefined>"
       /\ to mail = "user@example.com".
Proof.
  cbv zeta. split; [reflexivity |].
  apply (sender_follows_environment
           (Verification Samples.bare "user@example.com" "abc123")
           {| options := transportConfig (Samples.live Samples.credentials None) |} true).
  reflexivity.
Defined.

(** The variables one resolution reads. *)
Lemma getTransporter_envReads (w : World) (s : State) :
  Forall (fun n => n ∈ ["EMAIL_USER"; "EMAIL_PASS"; "EMAIL_PORT"; "EMAIL_HOST"])
    (envReads (snd (getTransporter w s))).
Proof.
  destruct s as [[t|] [|]]; try constructor.
  run.
  destruct (requireFails w "nodemailer"); [constructor |].
  destruct (truthy (env w !! "EMAIL_USER")); [| repeat constructor].
  destruct (truthy (env w !! "EMAIL_PASS")); [| repeat constructor].
  match goal with
  | |- context [createTransportFails w ?c] => destruct (createTransportFails w c)
  end; cbn; repeat (constructor; [set_solver |]); constructor.
Qed.

(** X8: a call of either operation reads CLIENT_URL first and exactly once,
    and apart from it only EMAIL_USER, EMAIL_PASS, EMAIL_PORT and EMAIL_HOST;
    no other environment variable influences or is seen by the e-mail
    helper. *)
Theorem environment_reads (c : call) (s : State) :
  exists rest,
    envReads (snd (perform c s)) = "CLIENT_URL" :: rest
    /\ Forall (fun n => n ∈ ["EMAIL_USER"; "EMAIL_PASS"; "EMAIL_PORT"; "EMAIL_HOST"]) rest.
Proof.
  destruct (perform_effects c s) as (r & s' & t0 & o & tail & Hg & Hp & _ & _ & He & _).
  pose proof (getTransporter_envReads (worldOf c) s) as H0. rewrite Hg in H0. cbn [snd] in H0.
  rewrite Hp. cbn [snd]. unfold envReads in *. cbn [omap list_omap]. rewrite omap_app.
  eexists. split; [reflexivity |].
  apply Forall_app. split; [exact H0 |]. rewrite He.
  destruct r; repeat constructor.
Qed.

(** * Further properties of the upload controller *)

(** Splits on what the collaborators of [uploadFile] do. *)
Ltac upload_cases w :=
  repeat match goal with
         | |- context [Upload.cloudinary w ?p] =>
             destruct (Upload.cloudinary w p) eqn:?
         | |- context [Upload.unlinkFails w ?n ?p] =>
             destruct (Upload.unlinkFails w n p) eqn:?
         | |- context [bool_decide (?p ∈ ?fs)] =>
             destruct (bool_decide (p ∈ fs)) eqn:?
         end.

(** X9: [uploadFile] never throws and answers every request exactly once:
    400 when no file came with the request, 200 when the upload and the first
    removal of the temporary file both succeed, 500 otherwise; the [success]
    field of the body is true exactly for 200; at most one upload and at most
    two removals are attempted. *)
Theorem uploadFile_answers_once (w : Upload.World) (req : Upload.Request) (s : Upload.State) :
  exists s' t status body,
    Upload.uploadFile w req s = (Normal tt, s', t)
    /\ Upload.responses t = [(status, VObj body)]
    /\ status
       = match Upload.file req with
         | None => 400%Z
         | Some f =>
             match Upload.cloudinary w (Upload.path f),
                   Upload.unlinkFails w (Upload.unlinks s) (Upload.path f) with
             | inr _, None =>
                 if bool_decide (Upload.path f ∈ Upload.files s) then 200%Z else 500%Z
             | _, _ => 500%Z
             end
         end
    /\ body !! "success" = Some (VBool (status =? 200)%Z)
    /\ length (Upload.uploads t) <= 1
    /\ length (Upload.unlinkAttempts t) <= 2.
Proof.
  destruct (Upload.uploadFile w req s) as [[r s'] t] eqn:E. revert E.
  destruct req as [[[p]|]]; destruct s as [fs n]; cbn [Upload.file Upload.path Upload.unlinks Upload.files].
  - run_upload. upload_cases w;
      destruct p as [| a p]; cbn [truthy]; upload_cases w;
      intros [= <- <- <-]; eexists _, _, _, _;
      (split; [reflexivity |]); (split; [reflexivity |]);
      (split; [reflexivity |]); (split; [reflexivity |]); split; simpl; lia.
  - run_upload. intros [= <- <- <-]. eexists _, _, _, _.
    split; [reflexivity |]. split; [reflexivity |]. split; [reflexivity |].
    split; [reflexivity |]. split; simpl; lia.
Qed.

(** X10: [uploadFile] never creates a file and removes at most the temporary
    file of the request: the disk after the request is the disk before, or
    the disk before without [req.file.path]. *)
Theorem uploadFile_touches_only_its_file
    (w : Upload.World) (req : Upload.Request) (s : Upload.State) :
  let s' := snd (fst (Upload.uploadFile w req s)) in
  Upload.files s' = Upload.files s
  \/ exists f, Upload.file req = Some f
               /\ Upload.files s' = Upload.files s ∖ {[ Upload.path f ]}.
Proof.
  cbv zeta. destruct req as [[[p]|]]; destruct s as [fs n].
  - run_upload. upload_cases w;
      destruct p as [| a p]; cbn [truthy]; upload_cases w; cbn [fst snd Upload.files];
      first [ left; reflexivity | right; eexists; split; reflexivity ].
  - left. reflexivity.
Qed.

(** X11: on a disk where removals do not fault, the temporary file is never
    left behind: whether the upload succeeds or fails, after the request
    [req.file.path] is not on disk. *)
Theorem uploadFile_leaves_no_temporary_file
    (w : Upload.World) (f : Upload.File) (s : Upload.State) :
  Upload.path f <> EmptyString ->
  (forall n, Upload.unlinkFails w n (Upload.path f) = None) ->
  Upload.path f ∉ Upload.files (snd (fst (Upload.uploadFile w {| Upload.file := Some f |} s))).
Proof.
  intros Hp Hu. destruct f as [p]; destruct s as [fs n]. cbn [Upload.path] in *.
  destruct p as [| a p]; [congruence |].
  run_upload. cbn [truthy].
  destruct (Upload.cloudinary w (String a p)); rewrite !Hu;
    destruct (bool_decide (String a p ∈ fs)) eqn:Hin;
    rewrite ?Hu, ?Hin; cbn [fst snd Upload.files];
    first [ set_solver | apply bool_decide_eq_false_1 in Hin; exact Hin ].
Qed.

(** X11 at an upload that Cloudinary refuses. *)
Lemma uploadFile_leaves_no_temporary_file_witness :
  "uploads/tmp-1.png" ∈ Upload.files Samples.disk
  /\ "uploads/tmp-1.png"
     ∉ Upload.files (snd (fst (Upload.uploadFile Samples.refusing Samples.request Samples.disk))).
Proof.
  split; [vm_compute; reflexivity |].
  apply (uploadFile_leaves_no_temporary_file Samples.refusing
           {| Upload.path := "uploads/tmp-1.png" |} Samples.disk).
  - discriminate.
  - reflexivity.
Defined.

(** X12 at an upload that Cloudinary refuses: the answer carries the text
    of the refusal. *)
Lemma uploadFile_upload_failed_witness :
  exists s' t,
    Upload.uploadFile Samples.refusing Samples.request Samples.disk = (Normal tt, s', t)
    /\ Upload.responses t
       = [(500%Z, VObj {[ "success" := VBool false;
                          "message" := VStr "Invalid image file" ]})]
    /\ Upload.unlinkAttempts t = ["uploads/tmp-1.png"].
Proof.
  apply (uploadFile_upload_failed Samples.refusing Samples.disk
           {| Upload.path := "uploads/tmp-1.png" |} (Error None "Invalid image file")).
  - reflexivity.
  - discriminate.
Defined.

(** X13 at an upload that succeeds on a disk without faults. *)
Lemma uploadFile_uploaded_witness :
  exists s' t,
    Upload.uploadFile Samples.smooth Samples.request Samples.disk = (Normal tt, s', t)
    /\ ("uploads/tmp-1.png" ∉ Upload.files s')
    /\ Upload.responses t
       = [(200%Z, VObj {[ "success" := VBool true;
                          "message" := VStr "File uploaded successfully";
                          "data" := VObj {[ "url" := VStr "https://res.cloudinary.com/seekon/tmp-1.png";
                                            "publicId" := VStr "seekon/tmp-1" ]} ]})].
Proof.
  apply (uploadFile_uploaded Samples.smooth Samples.disk
           {| Upload.path := "uploads/tmp-1.png" |}
           {| Upload.url := "https://res.cloudinary.com/seekon/tmp-1.png";
              Upload.public_id := "seekon/tmp-1" |}).
  - reflexivity.
  - reflexivity.
  - vm_compute; reflexivity.
Defined.

(** * [deleteFile] *)

(** X14: [deleteFile] never throws and answers every request exactly once.
    Without a public id (absent or empty) it answers 400 and does not call
    the object storage; otherwise it asks for the deletion of exactly that id
    once and answers 200 when it succeeds, and 500 with the text of the
    failure, passed on as it is, when it fails. *)
Theorem deleteFile_answers_once (w : DeleteFile.World) (req : DeleteFile.Request) :
  exists t status body,
    DeleteFile.deleteFile w req tt = (Normal tt, tt, t)
    /\ DeleteFile.responses t = [(status, VObj body)]
    /\ match DeleteFile.publicId req with
       | Some (String a r) =>
           DeleteFile.destroys t = [String a r]
           /\ match DeleteFile.deleteFromCloudinaryFails w (String a r) with
              | None =>
                  status = 200%Z
                  /\ body = {[ "success" := VBool true;
                               "message" := VStr "File deleted successfully" ]}
              | Some e =>
                  status = 500%Z
                  /\ body = {[ "success" := VBool false; "message" := VStr (message e) ]}
              end
       | _ =>
           DeleteFile.destroys t = []
           /\ status = 400%Z
           /\ body = {[ "success" := VBool false; "message" := VStr "Public ID is required" ]}
       end.
Proof.
  destruct req as [[[| a r]|]];
    cbv beta iota zeta delta
      [DeleteFile.deleteFile DeleteFile.deleteFromCloudinary DeleteFile.respond
       DeleteFile.publicId truthy negb
       mbind mret exec_bind exec_ret bind ret throw tryCatch gets modify emit app].
  - eexists _, _, _. repeat split.
  - destruct (DeleteFile.deleteFromCloudinaryFails w (String a r));
      eexists _, _, _; repeat split.
  - eexists _, _, _. repeat split.
Qed.

(** * [connectDB] *)

(** X15: [connectDB] never throws. It makes one connection attempt, to
    MONGO_URI as it is in the environment (also when unset), with [family: 4]
    and a server selection timeout of 5000 ms; when the attempt succeeds it
    logs the host and returns without exiting, and when it fails it logs the
    text of the failure and ends the process with exit code 1. *)
Theorem connectDB_connects_or_exits (w : Db.World) (s : Db.State) :
  let uri := Db.env w !! "MONGO_URI" in
  let opts := {| Db.family := 4; Db.serverSelectionTimeoutMS := 5000 |} in
  exists s' t,
    Db.connectDB w s = (Normal tt, s', t)
    /\ Db.connects t = [(uri, opts)]
    /\ match Db.connect w uri opts with
       | inr host =>
           s' = s
           /\ t = [Db.EvEnv "MONGO_URI"; Db.EvConnect uri opts;
                   Db.EvLog ("✅ MongoDB Connected: " +:+ host)]
       | inl e =>
           s' = Some 1%Z
           /\ t = [Db.EvEnv "MONGO_URI"; Db.EvConnect uri opts;
                   Db.EvError ("❌ Error: " +:+ message e); Db.EvExit 1]
       end.
Proof.
  cbv beta iota zeta delta
    [Db.connectDB Db.processEnv Db.mongooseConnect Db.processExit
     mbind mret exec_bind exec_ret bind ret throw tryCatch gets modify emit app].
  destruct (Db.connect w (Db.env w !! "MONGO_URI")
              {| Db.family := 4; Db.serverSelectionTimeoutMS := 5000 |});
    eexists _, _; repeat split.
Qed.
